(** * The career conversation bot of [app.py]: response-quality control loop

    A shallow embedding of [src/app.py]: the tool functions and their
    schemas, the loading of the persona ([Me.__init__]), the dispatch by
    name over the module namespace ([Me.handle_tool_call]), the persona
    system prompt, the evaluator ([Me._evaluate_with_anthropic]) and the
    conversation controller ([Me.chat]) with its tool-call loop and its
    bounded retry loop.

    Python values are an inductive type [pyval]; exceptions are values of
    [exn]; every function that talks to the outside world runs in a small
    state-and-exception monad over a [world] that records the requests sent
    to the three remote services.  The services themselves (the generator
    model, the evaluator endpoint, the process environment) are a record of
    oracles, and the two [while] loops take fuel.  What the program
    prints is not modelled. *)

From Stdlib Require Import ZArith String Ascii List Bool Lia.
From stdpp Require Import base option list strings gmap pretty.

Local Open Scope string_scope.
Local Open Scope list_scope.
Set Warnings "-register-all".
Set Default Proof Using "Type".

(** ** Python values *)

(** The values that flow through the program: what [json.loads] can
    return (floats apart, which the program never inspects), plus
    [PObject] for an instance of a class, which [json.dumps] refuses.
    Strings are sequences of code points below 256. *)
Inductive pyval : Type :=
| PNone
| PBool (b : bool)
| PInt (n : Z)
| PStr (s : string)
| PList (items : list pyval)
| PDict (entries : list (string * pyval))
| PObject (cls : string).

(** An exception: its class and [str(e)]. *)
Record exn : Type := Exn { exn_class : string; exn_str : string }.

Definition TypeError (msg : string) : exn := Exn "TypeError" msg.
Definition AttributeError (msg : string) : exn := Exn "AttributeError" msg.

(** [type(v).__name__] *)
Definition type_name (v : pyval) : string :=
  match v with
  | PNone => "NoneType"
  | PBool _ => "bool"
  | PInt _ => "int"
  | PStr _ => "str"
  | PList _ => "list"
  | PDict _ => "dict"
  | PObject cls => cls
  end.

(** [bool(v)]: the truth value used by [not] and by conditional
    expressions. *)
Definition truthy (v : pyval) : bool :=
  match v with
  | PNone => false
  | PBool b => b
  | PInt n => negb (n =? 0)%Z
  | PStr s => negb (String.eqb s "")
  | PList items => match items with [] => false | _ => true end
  | PDict entries => match entries with [] => false | _ => true end
  | PObject _ => true
  end.

(** *** Dictionaries, in insertion order *)

Fixpoint dict_lookup (k : string) (d : list (string * pyval)) : option pyval :=
  match d with
  | [] => None
  | (k', v) :: rest => if String.eqb k k' then Some v else dict_lookup k rest
  end.

(** [d[k] = v]: replaces in place or appends. *)
Fixpoint dict_set (k : string) (v : pyval) (d : list (string * pyval))
  : list (string * pyval) :=
  match d with
  | [] => [(k, v)]
  | (k', v') :: rest =>
      if String.eqb k k' then (k, v) :: rest else (k', v') :: dict_set k v rest
  end.

Definition dict_has (k : string) (d : list (string * pyval)) : bool :=
  match dict_lookup k d with Some _ => true | None => false end.

(** *** Strings *)

Fixpoint str_join (sep : string) (parts : list string) : string :=
  match parts with
  | [] => ""
  | [p] => p
  | p :: rest => p +:+ sep +:+ str_join sep rest
  end.

Fixpoint str_take (n : nat) (s : string) : string :=
  match n, s with
  | S n', String c s' => String c (str_take n' s')
  | _, _ => ""
  end.

Fixpoint str_rev_onto (s acc : string) : string :=
  match s with
  | EmptyString => acc
  | String c s' => str_rev_onto s' (String c acc)
  end.

Definition str_rev (s : string) : string := str_rev_onto s "".

(** [str.isspace] on a code point below 256. *)
Definition is_space (c : ascii) : bool :=
  let n := nat_of_ascii c in
  (Nat.leb 9 n && Nat.leb n 13) || (Nat.leb 28 n && Nat.leb n 32)
  || Nat.eqb n 133 || Nat.eqb n 160.

Fixpoint str_lstrip (s : string) : string :=
  match s with
  | String c s' => if is_space c then str_lstrip s' else s
  | EmptyString => ""
  end.

(** [s.strip()] *)
Definition str_strip (s : string) : string :=
  str_rev (str_lstrip (str_rev (str_lstrip s))).

(** [needle in haystack] for two strings. *)
Fixpoint str_contains (needle haystack : string) : bool :=
  String.prefix needle haystack
  || match haystack with
     | EmptyString => false
     | String _ rest => str_contains needle rest
     end.

(** *** [str(v)], as an f-string formats a value *)

Definition hex_digit (n : nat) : ascii :=
  ascii_of_nat (if Nat.ltb n 10 then 48 + n else 87 + n)%nat.

Definition str_has (c : ascii) (s : string) : bool :=
  existsb (Ascii.eqb c) (list_ascii_of_string s).

Definition single_quote : ascii := ascii_of_nat 39.
Definition double_quote : ascii := ascii_of_nat 34.

(** The quote character of [repr(s)]: the single quote, unless the string
    holds a single quote and no double quote. *)
Definition repr_quote (s : string) : ascii :=
  if str_has single_quote s && negb (str_has double_quote s)
  then double_quote else single_quote.

(** [str.isprintable] on a code point below 256. *)
Definition is_printable (n : nat) : bool :=
  (Nat.leb 32 n && Nat.leb n 126) || (Nat.leb 161 n && negb (Nat.eqb n 173)).

(** One character inside [repr(s)]: the quote character and the backslash
    are escaped, tab, newline and carriage return have their letter, and
    every other code point that is not printable is written [\xNN]. *)
Definition repr_char (quote c : ascii) : string :=
  let n := nat_of_ascii c in
  if Ascii.eqb c quote || Nat.eqb n 92 then String (ascii_of_nat 92) (String c "")
  else if Nat.eqb n 9 then "\t"
  else if Nat.eqb n 10 then "\n"
  else if Nat.eqb n 13 then "\r"
  else if is_printable n then String c ""
  else "\x" +:+ String (hex_digit (n / 16)%nat) (String (hex_digit (n mod 16)%nat) "").

Fixpoint repr_escape (quote : ascii) (s : string) : string :=
  match s with
  | EmptyString => ""
  | String c s' => repr_char quote c +:+ repr_escape quote s'
  end.

(** [repr(s)] for a string. *)
Definition str_repr (s : string) : string :=
  let quote := repr_quote s in
  String quote (repr_escape quote s) +:+ String quote "".

(** [repr(v)].  An instance of a class prints its class name (the address
    that the interpreter adds is not modelled). *)
Fixpoint py_repr (v : pyval) : string :=
  match v with
  | PNone => "None"
  | PBool true => "True"
  | PBool false => "False"
  | PInt n => pretty n
  | PStr s => str_repr s
  | PList items => "[" +:+ str_join ", " (map py_repr items) +:+ "]"
  | PDict entries =>
      "{" +:+ str_join ", "
                (map (fun kv => str_repr (fst kv) +:+ ": " +:+ py_repr (snd kv)) entries)
          +:+ "}"
  | PObject cls => "<" +:+ cls +:+ " object>"
  end.

(** A string prints as itself; every other value prints its [repr]. *)
Definition py_str (v : pyval) : string :=
  match v with
  | PStr s => s
  | _ => py_repr v
  end.

(** [str(x)] where [x] is a string or [None]. *)
Definition py_str_opt (x : option string) : string :=
  match x with Some s => s | None => "None" end.

(** *** [json.dumps] *)

(** One character inside a JSON string literal.  With [ensure_ascii] every
    code point outside the printable ASCII range is written [\u00xx];
    without it only the control characters are. *)
Definition json_escape_char (ensure_ascii : bool) (c : ascii) : string :=
  let n := nat_of_ascii c in
  if Nat.eqb n 34 then "\" +:+ String c ""
  else if Nat.eqb n 92 then "\\"
  else if Nat.eqb n 10 then "\n"
  else if Nat.eqb n 13 then "\r"
  else if Nat.eqb n 9 then "\t"
  else if Nat.eqb n 8 then "\b"
  else if Nat.eqb n 12 then "\f"
  else if Nat.ltb n 32 || (ensure_ascii && Nat.ltb 126 n)
       then "\u00" +:+ String (hex_digit (n / 16)%nat) (String (hex_digit (n mod 16)%nat) "")
  else String c "".

Fixpoint json_escape (ensure_ascii : bool) (s : string) : string :=
  match s with
  | EmptyString => ""
  | String c s' => json_escape_char ensure_ascii c +:+ json_escape ensure_ascii s'
  end.

(** The double quote character, as a string. *)
Definition dquote : string := String (ascii_of_nat 34) "".

Definition json_string (ensure_ascii : bool) (s : string) : string :=
  dquote +:+ json_escape ensure_ascii s +:+ dquote.

Definition not_serializable (v : pyval) : exn :=
  TypeError ("Object of type " +:+ type_name v +:+ " is not JSON serializable").

(** [json.dumps(v, ensure_ascii=...)] with the default separators. *)
Fixpoint json_dumps (ensure_ascii : bool) (v : pyval) : exn + string :=
  match v with
  | PNone => inr "null"
  | PBool true => inr "true"
  | PBool false => inr "false"
  | PInt n => inr (pretty n)
  | PStr s => inr (json_string ensure_ascii s)
  | PList items =>
      let fix each (l : list pyval) : exn + list string :=
        match l with
        | [] => inr []
        | x :: rest =>
            match json_dumps ensure_ascii x with
            | inl e => inl e
            | inr sx =>
                match each rest with
                | inl e => inl e
                | inr srest => inr (sx :: srest)
                end
            end
        end in
      match each items with
      | inl e => inl e
      | inr parts => inr ("[" +:+ str_join ", " parts +:+ "]")
      end
  | PDict entries =>
      let fix each (l : list (string * pyval)) : exn + list string :=
        match l with
        | [] => inr []
        | (k, x) :: rest =>
            match json_dumps ensure_ascii x with
            | inl e => inl e
            | inr sx =>
                match each rest with
                | inl e => inl e
                | inr srest => inr ((json_string ensure_ascii k +:+ ": " +:+ sx) :: srest)
                end
            end
        end in
      match each entries with
      | inl e => inl e
      | inr parts => inr ("{" +:+ str_join ", " parts +:+ "}")
      end
  | PObject _ => inl (not_serializable v)
  end.

(** The newline character, as a string. *)
Definition nl : string := String (ascii_of_nat 10) "".

(** ** Messages and model responses *)

(** [tool_call.id], [tool_call.function.name] and
    [tool_call.function.arguments] of the generator's SDK. *)
Record tool_call : Type := ToolCall {
  call_id : string;
  function_name : string;
  function_arguments : string
}.

(** [response.choices[0].message]: an object of the SDK, read through
    its attributes. *)
Record ChatCompletionMessage : Type := {
  content : option string;
  tool_calls : option (list tool_call)
}.

(** [response.choices[0]] *)
Record response : Type := {
  finish_reason : string;
  response_message : ChatCompletionMessage
}.

(** An element of the [messages] list.  [chat] builds dictionaries
    [{"role": .., "content": ..}] (with a ["tool_call_id"] for tool
    results) and appends the SDK's own message object after a tool round. *)
Inductive chat_message : Type :=
| Dict (role content : string) (tool_call_id : option string)
| Sdk (m : ChatCompletionMessage).

(** [m["role"]].  A dictionary is subscripted by key; the SDK's message
    is a pydantic model, which has attributes and no [__getitem__]. *)
Definition getitem_role (m : chat_message) : exn + string :=
  match m with
  | Dict role _ _ => inr role
  | Sdk _ => inl (TypeError "'ChatCompletionMessage' object is not subscriptable")
  end.

(** The value [json.dumps] sees for a message. *)
Definition pyval_of_message (m : chat_message) : pyval :=
  match m with
  | Dict role content None =>
      PDict [("role", PStr role); ("content", PStr content)]
  | Dict role content (Some i) =>
      PDict [("role", PStr role); ("content", PStr content); ("tool_call_id", PStr i)]
  | Sdk _ => PObject "ChatCompletionMessage"
  end.

(** ** The outside world *)

(** What one exchange with the evaluator endpoint can produce:
    [requests.post] raises, [raise_for_status] raises, [r.json()] raises,
    or [r.json()] returns a value. *)
Inductive http_outcome : Type :=
| PostRaises (e : exn)
| StatusRaises (e : exn)
| BodyRaises (e : exn)
| Body (out : pyval).

(** What the program links against and talks to.  The two remote models
    answer the [n]-th request they receive; [json_loads] is the standard
    library's decoder; [opaque_call] runs a callable whose body lies
    outside the control loop. *)
Record runtime : Type := {
  getenv : string -> option string;
  openai_create : nat -> list chat_message -> exn + response;
  anthropic_post : nat -> string -> http_outcome;
  json_loads : string -> exn + pyval;
  opaque_call : string -> list (string * pyval) -> exn + pyval
}.

(** The requests sent so far, oldest first: the [messages] argument of
    each [chat.completions.create], the body of each POST to the
    evaluator, and the [message] field handed to [requests.post] for
    each POST to Pushover (a string whenever [push] is called by the two
    recording tools; whatever the caller passed otherwise). *)
Record world : Type := World {
  openai_requests : list (list chat_message);
  anthropic_requests : list string;
  pushover_requests : list pyval
}.

Definition empty_world : world := World [] [] [].

(** ** Computations: state, exceptions, and loops that may not end *)

Inductive outcome (A : Type) : Type :=
| Ok (a : A)
| Raise (e : exn)
| Diverge.
Arguments Ok {A} a.
Arguments Raise {A} e.
Arguments Diverge {A}.

Definition M (A : Type) : Type := world -> outcome A * world.

Definition ret {A} (a : A) : M A := fun w => (Ok a, w).
Definition raise {A} (e : exn) : M A := fun w => (Raise e, w).
Definition diverge {A} : M A := fun w => (Diverge, w).

Definition bind {A B} (c : M A) (k : A -> M B) : M B :=
  fun w =>
    match c w with
    | (Ok a, w') => k a w'
    | (Raise e, w') => (Raise e, w')
    | (Diverge, w') => (Diverge, w')
    end.

Notation "'let*' x ':=' c 'in' k" := (bind c (fun x => k))
  (at level 10, x pattern, c at level 100, k at level 200).

(** A pure step that may raise. *)
Definition lift {A} (r : exn + A) : M A :=
  match r with
  | inl e => raise e
  | inr a => ret a
  end.

(** [try: c  except Exception as e: handler e] *)
Definition try_except {A} (c : M A) (handler : exn -> M A) : M A :=
  fun w =>
    match c w with
    | (Raise e, w') => handler e w'
    | r => r
    end.

(** [not x] for the result of [os.getenv]. *)
Definition env_missing (x : option string) : bool :=
  match x with
  | None => true
  | Some s => String.eqb s ""
  end.

(** ** The tools *)

Section Program.

Context (R : runtime).

(** [push(text)].  With both credentials it hands [text], unchanged, to
    [requests.post] as the [message] field; every failure of the POST is
    caught and printed, so the function returns [None] whatever happens
    (the printing is not modelled). *)
Definition push (text : pyval) : M pyval :=
  fun w =>
    if env_missing (getenv R "PUSHOVER_TOKEN") || env_missing (getenv R "PUSHOVER_USER")
    then (Ok PNone, w)
    else (Ok PNone,
          World (openai_requests w) (anthropic_requests w) (pushover_requests w ++ [text])).

Definition recorded_ok : pyval := PDict [("recorded", PStr "ok")].

(** [record_user_details(email, name=.., notes=..)] *)
Definition record_user_details (email name notes : pyval) : M pyval :=
  let message :=
    "New contact: " +:+ py_str name +:+ nl +:+ "Email: " +:+ py_str email
    +:+ nl +:+ "Notes: " +:+ py_str notes in
  let* _ := push (PStr message) in
  ret recorded_ok.

(** [record_unknown_question(question)] *)
Definition record_unknown_question (question : pyval) : M pyval :=
  let* _ := push (PStr ("Unanswered question: " +:+ py_str question)) in
  ret recorded_ok.

(** *** Calling with keyword arguments taken from a dictionary *)

Definition str_in (k : string) (l : list string) : bool :=
  existsb (String.eqb k) l.

(** Binds the keyword arguments of [fname( **arguments)] to the parameters:
    the required ones, then the ones with defaults.  The result lists the
    parameter values in declaration order. *)
Definition bind_kwargs (fname : string) (required : list string)
    (defaults : list (string * pyval)) (arguments : pyval) : exn + list pyval :=
  match arguments with
  | PDict kw =>
      let params := required ++ map fst defaults in
      match filter (fun kv => negb (str_in (fst kv) params)) kw with
      | (k, _) :: _ =>
          inl (TypeError (fname +:+ "() got an unexpected keyword argument '" +:+ k +:+ "'"))
      | [] =>
          match filter (fun p => negb (dict_has p kw)) required with
          | p :: _ =>
              inl (TypeError (fname +:+ "() missing 1 required positional argument: '" +:+ p +:+ "'"))
          | [] =>
              inr (map (fun p => default PNone (dict_lookup p kw)) required
                   ++ map (fun d => default (snd d) (dict_lookup (fst d) kw)) defaults)
          end
      end
  | _ =>
      inl (TypeError (fname +:+ "() argument after ** must be a mapping, not "
                      +:+ type_name arguments))
  end.

(** The functions [app.py] defines at module level. *)
Inductive local_function : Type :=
| f_push
| f_record_user_details
| f_record_unknown_question.

(** What a module-level name can be bound to: a function of [app.py], a
    callable whose body is outside the control loop (the class [Me] and
    the imported [OpenAI], [PdfReader], [load_dotenv]), or a value that
    is not callable (a module, a dictionary, a list, a string, [None], an
    instance of [Me]). *)
Inductive binding : Type :=
| Function (f : local_function)
| Opaque (name : string)
| Data (v : pyval).

(** [bool(tool)] *)
Definition binding_truthy (b : binding) : bool :=
  match b with
  | Function _ => true
  | Opaque _ => true
  | Data v => truthy v
  end.

(** [tool( **arguments)].  The interpreter unpacks [arguments] before it
    calls anything: a value that is not a mapping raises there, whatever
    [tool] is, and only then does a value that is not callable raise for
    that.  (How the message of the first error names the callee differs
    between interpreter versions; its class does not.) *)
Definition call_binding (tool : binding) (arguments : pyval) : M pyval :=
  match tool with
  | Function f_push =>
      let* args := lift (bind_kwargs "push" ["text"] [] arguments) in
      match args with
      | [text] => push text
      | _ => ret PNone
      end
  | Function f_record_user_details =>
      let* args :=
        lift (bind_kwargs "record_user_details" ["email"]
                [("name", PStr "Name not provided"); ("notes", PStr "not provided")]
                arguments) in
      match args with
      | [email; name; notes] => record_user_details email name notes
      | _ => ret PNone
      end
  | Function f_record_unknown_question =>
      let* args := lift (bind_kwargs "record_unknown_question" ["question"] [] arguments) in
      match args with
      | [question] => record_unknown_question question
      | _ => ret PNone
      end
  | Opaque name =>
      match arguments with
      | PDict kw => lift (opaque_call R name kw)
      | _ =>
          raise (TypeError (name +:+ "() argument after ** must be a mapping, not "
                            +:+ type_name arguments))
      end
  | Data v =>
      match arguments with
      | PDict _ => raise (TypeError ("'" +:+ type_name v +:+ "' object is not callable"))
      | _ =>
          raise (TypeError (type_name v +:+ " object argument after ** must be a mapping, not "
                            +:+ type_name arguments))
      end
  end.

End Program.

(** ** The module namespace *)

(** [record_user_details_json], [record_unknown_question_json] and [tools]. *)
Definition string_property (description : string) : pyval :=
  PDict [("type", PStr "string"); ("description", PStr description)].

Definition record_user_details_json : pyval :=
  PDict [
    ("name", PStr "record_user_details");
    ("description", PStr "Use this tool to record that a user is interested in being in touch and provided an email address. Extract the actual email address from the user's message - do not use placeholders like '[email]' or 'email@example.com'. Use the exact email address the user provided.");
    ("parameters", PDict [
       ("type", PStr "object");
       ("properties", PDict [
          ("email", string_property "The actual email address provided by the user in their message. Extract it exactly as they wrote it. Must be a real email address, not a placeholder.");
          ("name", string_property "The user's name, if they provided it. Use 'Name not provided' if no name was given.");
          ("notes", string_property "Any additional information about the conversation that's worth recording to give context. Use 'not provided' if there's nothing notable.")]);
       ("required", PList [PStr "email"]);
       ("additionalProperties", PBool false)])].

Definition record_unknown_question_json : pyval :=
  PDict [
    ("name", PStr "record_unknown_question");
    ("description", PStr "Always use this tool to record any question that couldn't be answered as you didn't know the answer");
    ("parameters", PDict [
       ("type", PStr "object");
       ("properties", PDict [
          ("question", string_property "The question that couldn't be answered")]);
       ("required", PList [PStr "question"]);
       ("additionalProperties", PBool false)])].

Definition tools : pyval :=
  PList [PDict [("type", PStr "function"); ("function", record_user_details_json)];
         PDict [("type", PStr "function"); ("function", record_unknown_question_json)]].

Definition a_module : binding := Data (PObject "module").

(** [globals()] of [app.py] while it serves a turn: the names the
    interpreter binds in a module run as a script (the docstring is
    abridged), then the bindings of the source in textual order. *)
Definition module_globals : gmap string binding :=
  list_to_map [
    ("__name__", Data (PStr "__main__"));
    ("__doc__", Data (PStr "Agentic Career Conversation Bot"));
    ("__package__", Data PNone);
    ("__loader__", Data (PObject "SourceFileLoader"));
    ("__spec__", Data PNone);
    ("__builtins__", a_module);
    ("__file__", Data (PStr "app.py"));
    ("load_dotenv", Opaque "load_dotenv");
    ("OpenAI", Opaque "OpenAI");
    ("json", a_module);
    ("os", a_module);
    ("requests", a_module);
    ("PdfReader", Opaque "PdfReader");
    ("gr", a_module);
    ("push", Function f_push);
    ("record_user_details", Function f_record_user_details);
    ("record_unknown_question", Function f_record_unknown_question);
    ("record_user_details_json", Data record_user_details_json);
    ("record_unknown_question_json", Data record_unknown_question_json);
    ("tools", Data tools);
    ("Me", Opaque "Me");
    ("me", Data (PObject "Me"))
  ].

(** ** The class [Me] *)

(** The attributes [__init__] sets from the persona documents
    ([self.openai] is the generator service of the runtime). *)
Record Me : Type := {
  name : string;
  linkedin : string;
  resume : string;
  summary : string
}.

Section Controller.

Context (R : runtime) (globals : gmap string binding).

(** *** [Me.handle_tool_call] *)

(** The body of the [for] loop: the tool message that answers one call. *)
Definition answer_tool_call (tool_call : tool_call) : M chat_message :=
  let tool_name := function_name tool_call in
  let* arguments := lift (json_loads R (function_arguments tool_call)) in
  let tool := globals !! tool_name in
  let* result :=
    match tool with
    | Some t => if binding_truthy t then call_binding R t arguments else ret (PDict [])
    | None => ret (PDict [])
    end in
  let* content := lift (json_dumps true result) in
  ret (Dict "tool" content (Some (call_id tool_call))).

(** The [for] loop, from the value [results] has reached. *)
Fixpoint handle_tool_call_from (results : list chat_message)
    (tool_calls : list tool_call) : M (list chat_message) :=
  match tool_calls with
  | [] => ret results
  | tool_call :: rest =>
      let* answer := answer_tool_call tool_call in
      handle_tool_call_from (results ++ [answer]) rest
  end.

(** [tool_calls] is the attribute of the SDK's message: a list, or
    [None], which a [for] loop cannot iterate. *)
Definition handle_tool_call (tool_calls : option (list tool_call))
  : M (list chat_message) :=
  match tool_calls with
  | Some l => handle_tool_call_from [] l
  | None => raise (TypeError "'NoneType' object is not iterable")
  end.

(** *** [Me.system_prompt] *)

Definition system_prompt (self : Me) : string :=
  let system_prompt :=
    "You are acting as " +:+ name self +:+ ". You are answering questions on "
    +:+ name self +:+ "'s website, "
    +:+ "particularly questions related to " +:+ name self
    +:+ "'s career, background, skills and experience. "
    +:+ "Your responsibility is to represent " +:+ name self
    +:+ " for interactions on the website as faithfully as possible. "
    +:+ "You are given a summary, a LinkedIn profile, and a resume which you can use to answer questions. "
    +:+ "Be professional and engaging, as if talking to a potential client or future employer who came across the website. "
    +:+ "If you don't know the answer to any question, use your record_unknown_question tool to record the question that you couldn't answer. "
    +:+ "If the user is engaging in discussion, try to steer them towards getting in touch via email; ask for their email and record it using your record_user_details tool. " in
  let system_prompt :=
    system_prompt +:+ nl +:+ nl +:+ "## Summary:" +:+ nl +:+ summary self
    +:+ nl +:+ nl +:+ "## LinkedIn Profile:" +:+ nl +:+ linkedin self
    +:+ nl +:+ nl +:+ "## Resume:" +:+ nl +:+ resume self +:+ nl +:+ nl in
  system_prompt
  +:+ "With this context, please chat with the user, always staying in character as "
  +:+ name self +:+ ".".

(** *** [Me._evaluate_with_anthropic] *)

Definition rubric : string :=
  "You are an evaluator that decides whether a response is acceptable. "
  +:+ "Judge helpfulness, professionalism, factuality with respect to the provided persona documents, and clarity. "
  +:+ "Return JSON with: is_acceptable (true/false) and feedback (1-2 short sentences).".

(** [{"is_acceptable": True, "feedback": feedback}] *)
Definition accepting (feedback : string) : pyval :=
  PDict [("is_acceptable", PBool true); ("feedback", PStr feedback)].

(** [v.get(k, dflt)]: only a dictionary has the method. *)
Definition get_method (v : pyval) (k : string) (dflt : pyval) : exn + pyval :=
  match v with
  | PDict d => inr (default dflt (dict_lookup k d))
  | _ => inl (AttributeError ("'" +:+ type_name v +:+ "' object has no attribute 'get'"))
  end.

(** The elements a comprehension draws from [v]. *)
Definition py_iter (v : pyval) : exn + list pyval :=
  match v with
  | PList items => inr items
  | PDict entries => inr (map (fun kv => PStr (fst kv)) entries)
  | PStr s => inr (map (fun c => PStr (String c "")) (list_ascii_of_string s))
  | _ => inl (TypeError ("'" +:+ type_name v +:+ "' object is not iterable"))
  end.

(** [[p.get("text", "") for p in parts if isinstance(p, dict)]] *)
Definition text_parts (parts : list pyval) : list pyval :=
  flat_map (fun p =>
              match p with
              | PDict d => [default (PStr "") (dict_lookup "text" d)]
              | _ => []
              end) parts.

(** ["".join(items)], where [i] is the index of the first item. *)
Fixpoint join_texts (i : nat) (items : list pyval) : exn + string :=
  match items with
  | [] => inr ""
  | PStr s :: rest =>
      match join_texts (S i) rest with
      | inl e => inl e
      | inr t => inr (s +:+ t)
      end
  | v :: _ =>
      inl (TypeError ("sequence item " +:+ pretty i +:+ ": expected str instance, "
                      +:+ type_name v +:+ " found"))
  end.

(** [k in data] *)
Definition py_in (k : string) (data : pyval) : exn + bool :=
  match data with
  | PDict d => inr (dict_has k d)
  | PList items =>
      inr (existsb (fun x => match x with PStr s => String.eqb s k | _ => false end) items)
  | PStr s => inr (str_contains k s)
  | _ => inl (TypeError ("argument of type '" +:+ type_name data +:+ "' is not iterable"))
  end.

(** [data[k] = v] *)
Definition py_setitem (data : pyval) (k : string) (v : pyval) : exn + pyval :=
  match data with
  | PDict d => inr (PDict (dict_set k v d))
  | PList _ => inl (TypeError "list indices must be integers or slices, not str")
  | _ => inl (TypeError ("'" +:+ type_name data +:+ "' object does not support item assignment"))
  end.

(** [requests.post(url, headers=headers, data=body, timeout=60)] followed
    by [raise_for_status()] and [json()]. *)
Definition post_anthropic (body : string) : M pyval :=
  fun w =>
    let w' := World (openai_requests w) (anthropic_requests w ++ [body])
                    (pushover_requests w) in
    match anthropic_post R (length (anthropic_requests w)) body with
    | PostRaises e => (Raise e, w')
    | StatusRaises e => (Raise e, w')
    | BodyRaises e => (Raise e, w')
    | Body out => (Ok out, w')
    end.

Definition evaluator_prompt (reply : option string) (message convo : string) : string :=
  "Conversation so far (JSON array of messages):" +:+ nl +:+ convo +:+ nl +:+ nl
  +:+ "User message: " +:+ message +:+ nl +:+ nl
  +:+ "Agent reply: " +:+ py_str_opt reply +:+ nl +:+ nl
  +:+ "Provide only the JSON object.".

Definition evaluator_payload (prompt : string) : pyval :=
  PDict [("model", PStr "claude-3-7-sonnet-latest");
         ("max_tokens", PInt 300);
         ("messages",
          PList [PDict [("role", PStr "system"); ("content", PStr rubric)];
                 PDict [("role", PStr "user"); ("content", PStr prompt)]])].

(** The two [if k not in data: data[k] = v] statements. *)
Definition fill_missing (k : string) (v : pyval) (data : pyval) : exn + pyval :=
  match py_in k data with
  | inl e => inl e
  | inr true => inr data
  | inr false => py_setitem data k v
  end.

(** [parts = out.get("content", [])] and the [text] joined from it. *)
Definition response_text (out : pyval) : exn + string :=
  match get_method out "content" (PList []) with
  | inl e => inl e
  | inr parts =>
      match py_iter parts with
      | inl e => inl e
      | inr items => join_texts 0 (text_parts items)
      end
  end.

(** The body of the [try] block. *)
Definition evaluate_request (payload : pyval) : M pyval :=
  let* body := lift (json_dumps true payload) in
  let* out := post_anthropic body in
  let* text := lift (response_text out) in
  let* data :=
    try_except (lift (json_loads R text))
               (fun _ => ret (accepting (str_take 400 (str_strip text)))) in
  let* data := lift (fill_missing "is_acceptable" (PBool true) data) in
  let* data := lift (fill_missing "feedback" (PStr "") data) in
  ret data.

Definition _evaluate_with_anthropic (reply : option string) (message : string)
    (history_messages : list chat_message) : M pyval :=
  let api_key := getenv R "ANTHROPIC_API_KEY" in
  if env_missing api_key then ret (accepting "Evaluator unavailable")
  else
    let* convo := lift (json_dumps false (PList (map pyval_of_message history_messages))) in
    let prompt := evaluator_prompt reply message convo in
    try_except (evaluate_request (evaluator_payload prompt))
               (fun e => ret (accepting (exn_str e))).

(** *** [Me.chat] *)

(** [self.openai.chat.completions.create(model=.., messages=messages,
    tools=tools)]: the request is recorded as sent, and the generator
    answers or the call raises. *)
Definition create (messages : list chat_message) : M response :=
  fun w =>
    let w' := World (openai_requests w ++ [messages]) (anthropic_requests w)
                    (pushover_requests w) in
    match openai_create R (length (openai_requests w)) messages with
    | inl e => (Raise e, w')
    | inr response => (Ok response, w')
    end.

(** The [while not done] loop.  It returns the last response together
    with [messages] as the rounds have extended it. *)
Fixpoint generation_loop (fuel : nat) (messages : list chat_message)
  : M (response * list chat_message) :=
  match fuel with
  | O => diverge
  | S fuel' =>
      let* response := create messages in
      if String.eqb (finish_reason response) "tool_calls" then
        let tool_msg := response_message response in
        let* results := handle_tool_call (tool_calls tool_msg) in
        generation_loop fuel' (messages ++ [Sdk tool_msg] ++ results)
      else ret (response, messages)
  end.

(** [[m for m in messages if m["role"] in ("system", "user", "assistant", "tool")]] *)
Fixpoint eval_history_of (messages : list chat_message) : exn + list chat_message :=
  match messages with
  | [] => inr []
  | m :: rest =>
      match getitem_role m with
      | inl e => inl e
      | inr role =>
          match eval_history_of rest with
          | inl e => inl e
          | inr kept =>
              inr (if str_in role ["system"; "user"; "assistant"; "tool"]
                   then m :: kept else kept)
          end
      end
  end.

(** The local variables of [chat] that live across the retry loop. *)
Record turn_state : Type := TurnState {
  messages : list chat_message;
  reply : option string;
  evaluation : pyval;
  attempts : nat
}.

(** One generation attempt: the tool-call loop, the reply, the history
    handed to the evaluator, the evaluation.  [chat] has this block twice,
    before the retry loop and inside it. *)
Definition attempt (fuel : nat) (attempts : nat) (message : string)
    (messages : list chat_message) : M turn_state :=
  let* (response, messages) := generation_loop fuel messages in
  let reply := content (response_message response) in
  let* eval_history := lift (eval_history_of messages) in
  let* evaluation := _evaluate_with_anthropic reply message eval_history in
  ret (TurnState messages reply evaluation attempts).

(** [not evaluation.get("is_acceptable", True)] *)
Definition rejected (evaluation : pyval) : exn + bool :=
  match get_method evaluation "is_acceptable" (PBool true) with
  | inl e => inl e
  | inr v => inr (negb (truthy v))
  end.

(** The text appended to the system prompt for a retry. *)
Definition rejection_block (reply feedback : string) : string :=
  nl +:+ nl +:+ "## Previous answer rejected" +:+ nl
  +:+ "Your previous answer was:" +:+ nl +:+ reply +:+ nl +:+ nl
  +:+ "Reason for rejection (from evaluator):" +:+ nl +:+ feedback +:+ nl +:+ nl
  +:+ "Revise your answer to address the feedback while staying faithful to the provided documents.".

(** The [messages] list [chat] builds for a system prompt. *)
Definition fresh_messages (system : string) (history : list chat_message)
    (message : string) : list chat_message :=
  [Dict "system" system None] ++ history ++ [Dict "user" message None].

(** The body of the retry loop, entered with the locals [st]. *)
Definition retry_round (fuel : nat) (base_system message : string)
    (history : list chat_message) (st : turn_state) : M turn_state :=
  let attempts := attempts st + 1 in
  let* feedback := lift (get_method (evaluation st) "feedback" (PStr "")) in
  let improved_system :=
    base_system +:+ rejection_block (py_str_opt (reply st)) (py_str feedback) in
  let messages := fresh_messages improved_system history message in
  attempt fuel attempts message messages.

(** [while not evaluation.get("is_acceptable", True) and attempts < 2] *)
Fixpoint retry_loop (fuel gen_fuel : nat) (base_system message : string)
    (history : list chat_message) (st : turn_state) : M turn_state :=
  match fuel with
  | O => diverge
  | S fuel' =>
      let* is_rejected := lift (rejected (evaluation st)) in
      if is_rejected && Nat.ltb (attempts st) 2 then
        let* st' := retry_round gen_fuel base_system message history st in
        retry_loop fuel' gen_fuel base_system message history st'
      else ret st
  end.

(** [chat], up to its [return]: the locals it ends with. *)
Definition chat_locals (fuel : nat) (self : Me) (message : string)
    (history : list chat_message) : M turn_state :=
  let base_system := system_prompt self in
  let messages := fresh_messages base_system history message in
  let* st := attempt fuel 0 message messages in
  retry_loop fuel fuel base_system message history st.

Definition chat (fuel : nat) (self : Me) (message : string)
    (history : list chat_message) : M (option string) :=
  let* st := chat_locals fuel self message history in
  ret (reply st).

End Controller.

(** ** Sample runtimes *)

(** A runtime that plays a script: the generator gives its [n]-th
    response to the [n]-th request and is unreachable afterwards, and so
    does the evaluator endpoint. *)
Definition braces (inner : string) : string := "{" +:+ inner +:+ "}".

Definition email_arguments : string :=
  braces (dquote +:+ "email" +:+ dquote +:+ ": " +:+ dquote +:+ "a@b.com" +:+ dquote).

Definition rejecting_text : string :=
  braces (dquote +:+ "is_acceptable" +:+ dquote +:+ ": false, "
          +:+ dquote +:+ "feedback" +:+ dquote +:+ ": " +:+ dquote +:+ "too informal" +:+ dquote).

Definition list_text : string :=
  "[" +:+ dquote +:+ "is_acceptable" +:+ dquote +:+ ", " +:+ dquote +:+ "feedback" +:+ dquote +:+ "]".

(** The decoder on the handful of documents the samples use; anything
    else is reported as malformed. *)
Definition sample_loads (s : string) : exn + pyval :=
  if String.eqb s "{}" then inr (PDict [])
  else if String.eqb s email_arguments then inr (PDict [("email", PStr "a@b.com")])
  else if String.eqb s rejecting_text
       then inr (PDict [("is_acceptable", PBool false); ("feedback", PStr "too informal")])
  else if String.eqb s list_text then inr (PList [PStr "is_acceptable"; PStr "feedback"])
  else inl (Exn "JSONDecodeError" "Expecting value: line 1 column 1 (char 0)").

Definition scripted (env : string -> option string) (generator : list response)
    (evaluator : list http_outcome) : runtime :=
  {| getenv := env;
     openai_create := fun n _ =>
       match generator !! n with
       | Some r => inr r
       | None => inl (Exn "APIConnectionError" "Connection error.")
       end;
     anthropic_post := fun n _ =>
       match evaluator !! n with
       | Some o => o
       | None => PostRaises (Exn "ConnectionError" "Max retries exceeded")
       end;
     json_loads := sample_loads;
     opaque_call := fun name _ => inr (PObject name) |}.

Definition no_env : string -> option string := fun _ => None.

Definition evaluator_env : string -> option string :=
  fun k => if String.eqb k "ANTHROPIC_API_KEY" then Some "sk-ant" else None.

(** A final answer of the generator. *)
Definition says (text : string) : response :=
  {| finish_reason := "stop";
     response_message := {| content := Some text; tool_calls := None |} |}.

(** A response that asks for tool calls. *)
Definition asks (calls : list tool_call) : response :=
  {| finish_reason := "tool_calls";
     response_message := {| content := None; tool_calls := Some calls |} |}.

(** The evaluator endpoint answering with one text block. *)
Definition evaluator_says (text : string) : http_outcome :=
  Body (PDict [("content", PList [PDict [("type", PStr "text"); ("text", PStr text)]])]).

Definition joshua : Me :=
  {| name := "Joshua"; linkedin := ""; resume := ""; summary := "Engineer." |}.

(** ** Pairing of tool messages with the calls they answer *)

(** The assistant message [m] issued a tool call with id [i]. *)
Definition issues (m : chat_message) (i : string) : Prop :=
  ∃ a calls tc,
    m = Sdk a ∧ tool_calls a = Some calls ∧ tc ∈ calls ∧ call_id tc = i.

(** Every tool message of the sequence comes after an assistant message
    that issued the call it answers. *)
Definition well_paired (msgs : list chat_message) : Prop :=
  ∀ k c i, msgs !! k = Some (Dict "tool" c (Some i)) →
    ∃ j m, j < k ∧ msgs !! j = Some m ∧ issues m i.

(** [answers] holds the tool messages for [calls], one per call, in order. *)
Definition answers_each (answers : list chat_message) (calls : list tool_call) : Prop :=
  Forall2 (fun m tc => ∃ c, m = Dict "tool" c (Some (call_id tc))) answers calls.

(** The two logs of model requests are those of [w]. *)
Definition same_model_requests (w w' : world) : Prop :=
  openai_requests w' = openai_requests w
  ∧ anthropic_requests w' = anthropic_requests w.

(** A generator that asks for the same tool call at every request. *)
Definition contact_call : tool_call :=
  ToolCall "call_1" "record_user_details" email_arguments.

Definition insistent : runtime :=
  {| getenv := no_env;
     openai_create := fun _ _ => inr (asks [contact_call]);
     anthropic_post := fun _ _ => PostRaises (Exn "ConnectionError" "Max retries exceeded");
     json_loads := sample_loads;
     opaque_call := fun name _ => inr (PObject name) |}.

(** One tool round and then an answer, with no evaluator configured. *)
Definition keep_in_touch : runtime :=
  scripted no_env [asks [contact_call]; says "Thanks, I will be in touch!"] [].

(** A model that names a tool the module does not have, once with
    arguments that decode and once with arguments that do not. *)
Definition hallucinated_call : tool_call := ToolCall "call_7" "delete_everything" "{}".
Definition garbled_call : tool_call := ToolCall "call_8" "delete_everything" "{oops".

Definition hallucinating : runtime :=
  scripted no_env [asks [hallucinated_call]; says "Done."] [].

Definition garbling : runtime :=
  scripted no_env [asks [garbled_call]; says "Done."] [].

(** The world once [body] has been posted to the evaluator. *)
Definition posted (body : string) (w : world) : world :=
  World (openai_requests w) (anthropic_requests w ++ [body]) (pushover_requests w).

(** What the two [if k not in data] statements make of [data]. *)
Definition completed (data : pyval) : exn + pyval :=
  match fill_missing "is_acceptable" (PBool true) data with
  | inl e => inl e
  | inr d => fill_missing "feedback" (PStr "") d
  end.

(** An evaluator endpoint that answers with text that is not JSON, and
    one that answers with a JSON list. *)
Definition rambling : runtime :=
  scripted evaluator_env [says "Hello."] [evaluator_says "  Looks fine to me.  "].

Definition listing : runtime :=
  scripted evaluator_env [says "Hello."] [evaluator_says list_text].

(** An evaluator that rejects three times over. *)
Definition strict : runtime :=
  scripted evaluator_env [says "yo"; says "hi"; says "hello"]
    [evaluator_says rejecting_text; evaluator_says rejecting_text;
     evaluator_says rejecting_text].

(** No evaluator configured, and a plain answer. *)
Definition unevaluated : runtime := scripted no_env [says "Hello."] [].

(** The locals a sample run ends with. *)
Definition result_state (r : outcome turn_state * world) : turn_state :=
  match fst r with
  | Ok st => st
  | _ => TurnState [] None PNone 0
  end.

(** The three attempts of a turn under [strict]. *)
Definition strict_first : outcome turn_state * world :=
  attempt strict module_globals 3 0 "hi"
    (fresh_messages (system_prompt joshua) [] "hi") empty_world.

Definition strict_second : outcome turn_state * world :=
  retry_round strict module_globals 3 (system_prompt joshua) "hi" []
    (result_state strict_first) (snd strict_first).


(** The world once [messages] has been sent to the generator. *)
Definition sent (messages : list chat_message) (w : world) : world :=
  World (openai_requests w ++ [messages]) (anthropic_requests w) (pushover_requests w).

(** The message is one of the dictionaries [chat] builds. *)
Definition is_dict (m : chat_message) : Prop :=
  match m with Dict _ _ _ => True | Sdk _ => False end.

(** The filter of the evaluator's history, on a dictionary. *)
Definition kept_role (m : chat_message) : bool :=
  match m with
  | Dict role _ _ => str_in role ["system"; "user"; "assistant"; "tool"]
  | Sdk _ => false
  end.

(** ** [Me.__init__] *)

(** [page.extract_text()]: a text, [None], or an exception. *)
Inductive page : Type :=
| PageText (text : option string)
| PageRaises (e : exn).

(** [PdfReader(path)]: an exception (the file is missing or unreadable),
    or a reader with its pages. *)
Inductive pdf : Type :=
| PdfRaises (e : exn)
| PdfPages (pages : list page).

(** What [__init__] finds when it runs: whether [OpenAI()] raises, the
    two optional documents, and [me/summary.txt], whose opening or
    reading may raise. *)
Record disk : Type := {
  openai_client : option exn;
  linkedin_pdf : pdf;
  resume_pdf : pdf;
  summary_txt : exn + string
}.

(** The [for page in reader.pages] loop under its [try]: the attribute
    starts at [acc], grows by each text that is not empty, and stays as
    it is when a page raises. *)
Fixpoint extract_pages (acc : string) (pages : list page) : string :=
  match pages with
  | [] => acc
  | PageText (Some text) :: rest =>
      if truthy (PStr text) then extract_pages (acc +:+ text) rest
      else extract_pages acc rest
  | PageText None :: rest => extract_pages acc rest
  | PageRaises _ :: _ => acc
  end.

(** One of the two [try] blocks of [__init__]. *)
Definition read_pdf (document : pdf) : string :=
  match document with
  | PdfRaises _ => ""
  | PdfPages pages => extract_pages "" pages
  end.

(** [Me()] *)
Definition init (d : disk) : exn + Me :=
  match openai_client d with
  | Some e => inl e
  | None =>
      let linkedin := read_pdf (linkedin_pdf d) in
      let resume := read_pdf (resume_pdf d) in
      match summary_txt d with
      | inl e => inl e
      | inr summary =>
          inr {| name := "Joshua"; linkedin := linkedin; resume := resume;
                 summary := summary |}
      end
  end.

(** The text of a page, as the loop adds it. *)
Definition page_text (p : page) : string :=
  match p with
  | PageText (Some text) => text
  | _ => ""
  end.

Definition page_raises (p : page) : bool :=
  match p with PageRaises _ => true | PageText _ => false end.

Fixpoint str_concat (parts : list string) : string :=
  match parts with
  | [] => ""
  | p :: rest => p +:+ str_concat rest
  end.

(** The pages the loop gets through: those before the first one that
    raises. *)
Fixpoint before_failure (pages : list page) : list page :=
  match pages with
  | [] => []
  | p :: rest => if page_raises p then [] else p :: before_failure rest
  end.

(** ** Reading the tool schemas *)

(** The strings of a list value. *)
Definition strings_of (v : pyval) : list string :=
  match v with
  | PList items =>
      flat_map (fun x => match x with PStr s => [s] | _ => [] end) items
  | _ => []
  end.

(** [schema["name"]], [schema["parameters"]["required"]] and the keys of
    [schema["parameters"]["properties"]]. *)
Definition schema_name (schema : pyval) : string :=
  match schema with
  | PDict d => match dict_lookup "name" d with Some (PStr s) => s | _ => "" end
  | _ => ""
  end.

Definition schema_parameters (schema : pyval) : list (string * pyval) :=
  match schema with
  | PDict d => match dict_lookup "parameters" d with Some (PDict ps) => ps | _ => [] end
  | _ => []
  end.

Definition schema_required (schema : pyval) : list string :=
  match dict_lookup "required" (schema_parameters schema) with
  | Some v => strings_of v
  | None => []
  end.

Definition schema_properties (schema : pyval) : list string :=
  match dict_lookup "properties" (schema_parameters schema) with
  | Some (PDict props) => map fst props
  | _ => []
  end.

(** The argument object has every required property and, the schema
    saying [additionalProperties: False], no property the schema does
    not declare.  The types of the values are not looked at. *)
Definition schema_accepts (schema : pyval) (kw : list (string * pyval)) : bool :=
  forallb (fun p => dict_has p kw) (schema_required schema)
  && forallb (fun kv => str_in (fst kv) (schema_properties schema)) kw.

(** The schemas of [tools], in order. *)
Definition declared_schemas : list pyval :=
  match tools with
  | PList entries =>
      flat_map (fun t =>
                  match t with
                  | PDict d => match dict_lookup "function" d with
                               | Some f => [f]
                               | None => []
                               end
                  | _ => []
                  end) entries
  | _ => []
  end.

(** The text [record_user_details] notifies for an argument object. *)
Definition contact_text (kw : list (string * pyval)) : string :=
  "New contact: " +:+ py_str (default (PStr "Name not provided") (dict_lookup "name" kw))
  +:+ nl +:+ "Email: " +:+ py_str (default PNone (dict_lookup "email" kw))
  +:+ nl +:+ "Notes: " +:+ py_str (default (PStr "not provided") (dict_lookup "notes" kw)).

(** Every value of the argument object is a string, as the schemas of
    [tools] declare. *)
Definition string_valued (kw : list (string * pyval)) : bool :=
  forallb (fun kv => match snd kv with PStr _ => true | _ => false end) kw.

(** The string under [k], or [d] when the object has no such property. *)
Definition field_or (k d : string) (kw : list (string * pyval)) : string :=
  match dict_lookup k kw with
  | Some (PStr s) => s
  | _ => d
  end.

(** Both Pushover credentials are set and not empty. *)
Definition pushover_configured (R : runtime) : bool :=
  negb (env_missing (getenv R "PUSHOVER_TOKEN") || env_missing (getenv R "PUSHOVER_USER")).

(** The world once [text] has been posted to Pushover. *)
Definition notified (text : string) (w : world) : world :=
  World (openai_requests w) (anthropic_requests w) (pushover_requests w ++ [PStr text]).

(** The content of the tool message for a recorded event. *)
Definition recorded_content : string :=
  braces (dquote +:+ "recorded" +:+ dquote +:+ ": " +:+ dquote +:+ "ok" +:+ dquote).

(** ** Reading the evaluator's answer *)

(** What a block of [content] adds to the text: its ["text"] when it is
    a dictionary, nothing otherwise. *)
Definition block_text (p : pyval) : string :=
  match p with
  | PDict d => match dict_lookup "text" d with Some (PStr s) => s | _ => "" end
  | _ => ""
  end.

(** The block is not a dictionary, or its ["text"] is missing or a
    string. *)
Definition block_joins (p : pyval) : Prop :=
  match p with
  | PDict d => match dict_lookup "text" d with
               | Some (PStr _) | None => True
               | Some _ => False
               end
  | _ => True
  end.

(** ** Requests of a turn *)

(** The request starts with a system message whose text starts with
    [base], followed by the history and the user's message. *)
Definition opens_turn (base : string) (history : list chat_message) (message : string)
    (request : list chat_message) : Prop :=
  ∃ extra tail, request = fresh_messages (base +:+ extra) history message ++ tail.

(** ** Sample runtimes with Pushover configured *)

Definition pushover_env : string -> option string :=
  fun k =>
    if String.eqb k "PUSHOVER_TOKEN" then Some "tok"
    else if String.eqb k "PUSHOVER_USER" then Some "usr"
    else None.

(** A summary, a profile whose second page cannot be read, no resume. *)
Definition sample_disk : disk :=
  {| openai_client := None;
     linkedin_pdf := PdfPages [PageText (Some "Page one. "); PageRaises (Exn "PdfReadError" "bad page");
                               PageText (Some "Page three.")];
     resume_pdf := PdfRaises (Exn "FileNotFoundError" "me/resume.pdf");
     summary_txt := inr "Engineer." |}.

(** The generator answers at once; the evaluator accepts. *)
Definition lenient : runtime :=
  scripted evaluator_env [says "Hello."]
    [evaluator_says (braces (dquote +:+ "is_acceptable" +:+ dquote +:+ ": true"))].

(** The evaluator rejects once and its second answer is not JSON. *)
Definition once_strict : runtime :=
  scripted evaluator_env [says "yo"; says "Good afternoon."]
    [evaluator_says rejecting_text; evaluator_says "Fine."].

(** Pushover is configured, and every argument string decodes to the
    same question. *)
Definition curious : runtime :=
  {| getenv := pushover_env;
     openai_create := fun _ _ => inr (says "Let me find out.");
     anthropic_post := fun _ _ => PostRaises (Exn "ConnectionError" "Max retries exceeded");
     json_loads := fun _ => inr (PDict [("question", PStr "Do you ski?")]);
     opaque_call := fun name _ => inr (PObject name) |}.

(** The generator answers once and cannot be reached afterwards; the
    evaluator rejects. *)
Definition flaky : runtime :=
  scripted evaluator_env [says "yo"] [evaluator_says rejecting_text].

(** Pushover is configured, and every argument string decodes to a
    text to push. *)
Definition advertising : runtime :=
  {| getenv := pushover_env;
     openai_create := fun _ _ => inr (says "Done.");
     anthropic_post := fun _ _ => PostRaises (Exn "ConnectionError" "Max retries exceeded");
     json_loads := fun _ => inr (PDict [("text", PStr "Buy now!")]);
     opaque_call := fun name _ => inr (PObject name) |}.

(** The generator cannot be reached. *)
Definition unreachable : runtime := scripted evaluator_env [] [].

(** * Properties *)

(** ** Serialization *)

Example json_dumps_empty_dict : json_dumps true (PDict []) = inr "{}".
Proof. reflexivity. Qed.

Example json_dumps_recorded :
  json_dumps true (PDict [("recorded", PStr "ok")])
  = inr ("{" +:+ dquote +:+ "recorded" +:+ dquote +:+ ": " +:+ dquote +:+ "ok" +:+ dquote +:+ "}").
Proof. reflexivity. Qed.

(** ** The monad *)

Lemma bind_Ok {A B} (c : M A) (k : A → M B) w a w' :
  c w = (Ok a, w') → bind c k w = k a w'.
Proof. intros H. unfold bind. by rewrite H. Qed.

Lemma bind_Raise {A B} (c : M A) (k : A → M B) w e w' :
  c w = (Raise e, w') → bind c k w = (Raise e, w').
Proof. intros H. unfold bind. by rewrite H. Qed.

Lemma bind_Diverge {A B} (c : M A) (k : A → M B) w w' :
  c w = (Diverge, w') → bind c k w = (Diverge, w').
Proof. intros H. unfold bind. by rewrite H. Qed.

Lemma lift_inr {A} (a : A) w : lift (inr a) w = (Ok a, w).
Proof. reflexivity. Qed.

Lemma lift_inl {A} e w : @lift A (inl e) w = (Raise e, w).
Proof. reflexivity. Qed.

Ltac run_monad :=
  unfold bind, ret, raise, diverge, lift, try_except in *; simpl in *.

(** ** Tool dispatch *)

Section Dispatch.

Context (R : runtime) (globals : gmap string binding).

Lemma same_model_requests_refl w : same_model_requests w w.
Proof. by split. Qed.

Lemma same_model_requests_trans w1 w2 w3 :
  same_model_requests w1 w2 → same_model_requests w2 w3 → same_model_requests w1 w3.
Proof. intros [? ?] [? ?]. split; congruence. Qed.

Lemma push_returns text w :
  ∃ w', push R text w = (Ok PNone, w') ∧ same_model_requests w w'.
Proof.
  unfold push. destruct (_ || _); eexists; split; try reflexivity; by split.
Qed.

Lemma record_user_details_returns email name notes w :
  ∃ w', record_user_details R email name notes w = (Ok recorded_ok, w')
        ∧ same_model_requests w w'.
Proof.
  unfold record_user_details.
  destruct (push_returns
    (PStr ("New contact: " +:+ py_str name +:+ nl +:+ "Email: " +:+ py_str email
           +:+ nl +:+ "Notes: " +:+ py_str notes)) w) as (w' & Hp & Hs).
  exists w'. split; [|done]. by rewrite (bind_Ok _ _ _ _ _ Hp).
Qed.

Lemma record_unknown_question_returns question w :
  ∃ w', record_unknown_question R question w = (Ok recorded_ok, w')
        ∧ same_model_requests w w'.
Proof.
  unfold record_unknown_question.
  destruct (push_returns (PStr ("Unanswered question: " +:+ py_str question)) w)
    as (w' & Hp & Hs).
  exists w'. split; [|done]. by rewrite (bind_Ok _ _ _ _ _ Hp).
Qed.

(** A call through [tool( **arguments)] returns or raises; it sends
    nothing to either model. *)
Lemma call_binding_effect t arguments w :
  same_model_requests w (snd (call_binding R t arguments w))
  ∧ fst (call_binding R t arguments w) ≠ Diverge.
Proof.
  destruct t as [[| |]|name|v]; simpl.
  - unfold bind. destruct (bind_kwargs _ _ _ _) as [e|args]; simpl.
    + split; [apply same_model_requests_refl|done].
    + destruct args as [|text [|? ?]]; simpl;
        try (split; [apply same_model_requests_refl|done]).
      destruct (push_returns text w) as (w' & -> & Hs). by split.
  - unfold bind. destruct (bind_kwargs _ _ _ _) as [e|args]; simpl.
    + split; [apply same_model_requests_refl|done].
    + destruct args as [|email [|name [|notes [|? ?]]]]; simpl;
        try (split; [apply same_model_requests_refl|done]).
      destruct (record_user_details_returns email name notes w) as (w' & -> & Hs).
      by split.
  - unfold bind. destruct (bind_kwargs _ _ _ _) as [e|args]; simpl.
    + split; [apply same_model_requests_refl|done].
    + destruct args as [|question [|? ?]]; simpl;
        try (split; [apply same_model_requests_refl|done]).
      destruct (record_unknown_question_returns question w) as (w' & -> & Hs).
      by split.
  - destruct arguments; simpl; try (split; [apply same_model_requests_refl|done]).
    destruct (opaque_call R name entries); simpl;
      (split; [apply same_model_requests_refl|done]).
  - destruct arguments; simpl; (split; [apply same_model_requests_refl|done]).
Qed.

(** The three ways [answer_tool_call] can go. *)
Lemma answer_decode_error tc e w :
  json_loads R (function_arguments tc) = inl e →
  answer_tool_call R globals tc w = (Raise e, w).
Proof. intros H. unfold answer_tool_call, bind. by rewrite H. Qed.

Lemma answer_fallback tc a w :
  json_loads R (function_arguments tc) = inr a →
  globals !! function_name tc = None
  ∨ (∃ t, globals !! function_name tc = Some t ∧ binding_truthy t = false) →
  answer_tool_call R globals tc w = (Ok (Dict "tool" "{}" (Some (call_id tc))), w).
Proof.
  intros H Hg. unfold answer_tool_call, bind. rewrite H. simpl.
  destruct Hg as [-> | (t & -> & ->)]; reflexivity.
Qed.

Lemma answer_invokes tc a t w :
  json_loads R (function_arguments tc) = inr a →
  globals !! function_name tc = Some t →
  binding_truthy t = true →
  answer_tool_call R globals tc w
  = (let* result := call_binding R t a in
     let* content := lift (json_dumps true result) in
     ret (Dict "tool" content (Some (call_id tc)))) w.
Proof.
  intros H Hg Ht. unfold answer_tool_call. unfold bind at 1. rewrite H. simpl.
  by rewrite Hg, Ht.
Qed.

Lemma answer_effect tc w :
  same_model_requests w (snd (answer_tool_call R globals tc w))
  ∧ match fst (answer_tool_call R globals tc w) with
    | Ok m => ∃ c, m = Dict "tool" c (Some (call_id tc))
    | Raise _ => True
    | Diverge => False
    end.
Proof.
  destruct (json_loads R (function_arguments tc)) as [e|a] eqn:H.
  { rewrite (answer_decode_error _ _ _ H). simpl.
    split; [apply same_model_requests_refl|done]. }
  destruct (globals !! function_name tc) as [t|] eqn:Hg.
  2:{ rewrite (answer_fallback _ _ _ H) by eauto. simpl.
      split; [apply same_model_requests_refl|eauto]. }
  destruct (binding_truthy t) eqn:Ht.
  2:{ rewrite (answer_fallback _ _ _ H) by eauto. simpl.
      split; [apply same_model_requests_refl|eauto]. }
  rewrite (answer_invokes _ _ _ _ H Hg Ht).
  destruct (call_binding_effect t a w) as [Hs Hd].
  destruct (call_binding R t a w) as [[result| |] w'] eqn:Hc; simpl in *.
  - rewrite (bind_Ok _ _ _ _ _ Hc). unfold bind.
    destruct (json_dumps true result); simpl; split; eauto.
  - rewrite (bind_Raise _ _ _ _ _ Hc). by split.
  - done.
Qed.

(** The [for] loop appends to [results] one tool message per call, in
    the order of the calls, or raises. *)
Lemma handle_from_effect calls : ∀ results w,
  same_model_requests w (snd (handle_tool_call_from R globals results calls w))
  ∧ match fst (handle_tool_call_from R globals results calls w) with
    | Ok out => ∃ new, out = results ++ new ∧ answers_each new calls
    | Raise _ => True
    | Diverge => False
    end.
Proof.
  induction calls as [|tc calls IH]; intros results w; simpl.
  { split; [apply same_model_requests_refl|]. exists []. split; [by rewrite app_nil_r|constructor]. }
  destruct (answer_effect tc w) as [Hs Ha].
  unfold bind. destruct (answer_tool_call R globals tc w) as [[m| |] w1]; simpl in *; try done.
  destruct (IH (results ++ [m]) w1) as [Hs' Hr].
  split; [by eapply same_model_requests_trans|].
  destruct (fst (handle_tool_call_from R globals (results ++ [m]) calls w1)); try done.
  destruct Hr as (new & -> & Hnew). exists (m :: new). split.
  - by rewrite <- app_assoc.
  - by constructor.
Qed.

Lemma handle_effect calls w :
  same_model_requests w (snd (handle_tool_call R globals calls w))
  ∧ match fst (handle_tool_call R globals calls w) with
    | Ok out => ∃ l, calls = Some l ∧ answers_each out l
    | Raise _ => True
    | Diverge => False
    end.
Proof.
  destruct calls as [l|]; simpl.
  - destruct (handle_from_effect l [] w) as [Hs Hr]. split; [done|].
    destruct (fst (handle_tool_call_from R globals [] l w)); try done.
    destruct Hr as (new & -> & Hnew). eauto.
  - split; [apply same_model_requests_refl|done].
Qed.

(** Running the loop over [before ++ after] is running it over [before]
    and then over [after]. *)
Lemma handle_from_app before : ∀ after results w,
  handle_tool_call_from R globals results (before ++ after) w
  = (let* mid := handle_tool_call_from R globals results before in
     handle_tool_call_from R globals mid after) w.
Proof.
  induction before as [|tc before IH]; intros after results w; simpl.
  - reflexivity.
  - destruct (answer_tool_call R globals tc w) as [[m| |] w1] eqn:Ha.
    + rewrite (bind_Ok _ _ _ _ _ Ha). rewrite IH.
      unfold bind at 2. rewrite (bind_Ok _ _ _ _ _ Ha). reflexivity.
    + rewrite (bind_Raise _ _ _ _ _ Ha).
      unfold bind at 1. by rewrite (bind_Raise _ _ _ _ _ Ha).
    + rewrite (bind_Diverge _ _ _ _ Ha).
      unfold bind at 1. by rewrite (bind_Diverge _ _ _ _ Ha).
Qed.

End Dispatch.

(** ** The tool-call loop *)

Section Generation.

Context (R : runtime) (globals : gmap string binding).

Lemma create_inr messages w r :
  openai_create R (length (openai_requests w)) messages = inr r →
  create R messages w = (Ok r, sent messages w).
Proof. intros H. unfold create. by rewrite H. Qed.

Lemma create_inl messages w e :
  openai_create R (length (openai_requests w)) messages = inl e →
  create R messages w = (Raise e, sent messages w).
Proof. intros H. unfold create. by rewrite H. Qed.

Lemma generation_final fuel messages w r :
  openai_create R (length (openai_requests w)) messages = inr r →
  String.eqb (finish_reason r) "tool_calls" = false →
  generation_loop R globals (S fuel) messages w = (Ok (r, messages), sent messages w).
Proof.
  intros H Hf. simpl. rewrite (bind_Ok _ _ _ _ _ (create_inr _ _ _ H)).
  by rewrite Hf.
Qed.

Lemma generation_tools fuel messages w r results w2 :
  openai_create R (length (openai_requests w)) messages = inr r →
  String.eqb (finish_reason r) "tool_calls" = true →
  handle_tool_call R globals (tool_calls (response_message r)) (sent messages w)
  = (Ok results, w2) →
  generation_loop R globals (S fuel) messages w
  = generation_loop R globals fuel
      (messages ++ [Sdk (response_message r)] ++ results) w2.
Proof.
  intros H Hf Hh. simpl. rewrite (bind_Ok _ _ _ _ _ (create_inr _ _ _ H)).
  rewrite Hf. by rewrite (bind_Ok _ _ _ _ _ Hh).
Qed.

Lemma generation_tools_raise fuel messages w r e w2 :
  openai_create R (length (openai_requests w)) messages = inr r →
  String.eqb (finish_reason r) "tool_calls" = true →
  handle_tool_call R globals (tool_calls (response_message r)) (sent messages w)
  = (Raise e, w2) →
  generation_loop R globals (S fuel) messages w = (Raise e, w2).
Proof.
  intros H Hf Hh. simpl. rewrite (bind_Ok _ _ _ _ _ (create_inr _ _ _ H)).
  rewrite Hf. by rewrite (bind_Raise _ _ _ _ _ Hh).
Qed.

(** A tool round keeps the sequence well paired. *)
Lemma well_paired_round messages a calls results :
  well_paired messages →
  tool_calls a = Some calls →
  answers_each results calls →
  well_paired (messages ++ [Sdk a] ++ results).
Proof.
  intros Hwp Hc Hans k c i Hk.
  destruct (decide (k < length messages)) as [Hlt|Hge].
  - rewrite lookup_app_l in Hk by done.
    destruct (Hwp k c i Hk) as (j & m & Hj & Hm & Hi).
    exists j, m. split; [done|]. split; [|done].
    rewrite lookup_app_l by lia. done.
  - rewrite lookup_app_r in Hk by lia.
    destruct (k - length messages) as [|n] eqn:Hn; simpl in Hk; [done|].
    destruct (Forall2_lookup_l _ _ _ _ _ Hans Hk) as (tc & Htc & c' & Heq).
    injection Heq as _ ->.
    exists (length messages), (Sdk a). split; [lia|]. split.
    + by apply list_lookup_middle.
    + exists a, calls, tc. repeat split; try done.
      eapply list_elem_of_lookup_2. exact Htc.
Qed.

(** What a run of the tool-call loop does to the logs, whatever its
    outcome, and what it returns when it returns. *)
Lemma generation_effect fuel : ∀ messages w,
  openai_requests w `prefix_of` openai_requests (snd (generation_loop R globals fuel messages w))
  ∧ anthropic_requests (snd (generation_loop R globals fuel messages w)) = anthropic_requests w
  ∧ (0 < fuel →
     openai_requests (snd (generation_loop R globals fuel messages w))
       !! length (openai_requests w) = Some messages)
  ∧ (Forall well_paired (openai_requests w) → well_paired messages →
     Forall well_paired (openai_requests (snd (generation_loop R globals fuel messages w))))
  ∧ match fst (generation_loop R globals fuel messages w) with
    | Ok (r, messages') =>
        String.eqb (finish_reason r) "tool_calls" = false
        ∧ messages `prefix_of` messages'
        ∧ (well_paired messages → well_paired messages')
    | _ => True
    end.
Proof.
  induction fuel as [|fuel IH]; intros messages w.
  { simpl. repeat split; try done. lia. }
  assert (Hlog : openai_requests (sent messages w) !! length (openai_requests w)
                 = Some messages).
  { simpl. by apply list_lookup_middle. }
  assert (Hpre : openai_requests w `prefix_of` openai_requests (sent messages w)).
  { simpl. by apply prefix_app_r. }
  assert (Hall : Forall well_paired (openai_requests w) → well_paired messages →
                 Forall well_paired (openai_requests (sent messages w))).
  { intros H1 H2. simpl. apply Forall_app. split; [done|]. by constructor. }
  destruct (openai_create R (length (openai_requests w)) messages) as [e|r] eqn:Hc.
  { simpl. rewrite (bind_Raise _ _ _ _ _ (create_inl _ _ _ Hc)). simpl.
    repeat split; try done. }
  destruct (String.eqb (finish_reason r) "tool_calls") eqn:Hf.
  2:{ rewrite (generation_final _ _ _ _ Hc Hf). simpl. repeat split; try done. }
  destruct (handle_effect R globals (tool_calls (response_message r)) (sent messages w))
    as [[Hso Hsa] Hr].
  destruct (handle_tool_call R globals (tool_calls (response_message r)) (sent messages w))
    as [[results| |] w2] eqn:Hh; simpl in Hso, Hsa, Hr; [| |done].
  2:{ rewrite (generation_tools_raise _ _ _ _ _ _ Hc Hf Hh). simpl.
      rewrite Hso, Hsa. repeat split; try done. }
  destruct Hr as (calls & Hcalls & Hans).
  rewrite (generation_tools _ _ _ _ _ _ Hc Hf Hh).
  destruct (IH (messages ++ [Sdk (response_message r)] ++ results) w2)
    as (IH1 & IH2 & IH3 & IH4 & IH5).
  assert (Hwp : well_paired messages →
                well_paired (messages ++ [Sdk (response_message r)] ++ results)).
  { intros H. by eapply well_paired_round. }
  repeat split.
  - etrans; [exact Hpre|]. simpl. by rewrite <- Hso.
  - by rewrite IH2.
  - intros _. eapply prefix_lookup_Some; [|exact IH1].
    rewrite Hso. by apply list_lookup_middle.
  - intros H1 H2. apply IH4; [rewrite Hso; exact (Hall H1 H2)|by apply Hwp].
  - destruct (fst (generation_loop R globals fuel _ w2)) as [[r' messages']| |]; try done.
    destruct IH5 as (? & ? & ?). repeat split; try done.
    + etrans; [|done]. by apply prefix_app_r.
    + auto.
Qed.

(** ** The history handed to the evaluator *)

Lemma eval_history_dicts messages :
  Forall is_dict messages →
  eval_history_of messages = inr (List.filter kept_role messages).
Proof.
  induction 1 as [|m messages Hm Hall IH]; [done|].
  destruct m as [role c i|]; [|done].
  cbn [eval_history_of getitem_role List.filter kept_role]. rewrite IH.
  by destruct (str_in role _).
Qed.

Lemma eval_history_sdk before a after :
  Forall is_dict before →
  eval_history_of (before ++ Sdk a :: after)
  = inl (TypeError "'ChatCompletionMessage' object is not subscriptable").
Proof.
  induction 1 as [|m before Hm Hall IH]; [done|].
  destruct m; [|done]. simpl. by rewrite IH.
Qed.

Lemma eval_history_inr messages h :
  eval_history_of messages = inr h → Forall is_dict messages ∧ Forall is_dict h.
Proof.
  revert h. induction messages as [|m messages IH]; intros h.
  { intros [= <-]. by split. }
  destruct m as [role c i|]; [|done].
  cbn [eval_history_of getitem_role].
  destruct (eval_history_of messages) as [e|kept]; [done|].
  destruct (IH kept eq_refl) as [H1 H2].
  destruct (str_in role _); intros [= <-]; split; by repeat constructor.
Qed.

End Generation.

(** ** Claims about tool dispatch *)

(** C9. In a tool round the dispatch produces exactly one tool message
    per call, in the order of the calls and carrying the id of its call;
    no request goes to the generator in between; the loop goes on with
    the assistant message followed by these tool messages, which is what
    the next request to the generator carries; and the sequence stays
    well paired, so that every request a run of the loop sends is well
    paired when the initial sequence is. *)
Theorem tool_round_answers_each_call (R : runtime) (globals : gmap string binding)
    (fuel : nat) (messages : list chat_message) (w : world)
    (response : response) (calls : list tool_call)
    (results : list chat_message) (w2 : world) :
  openai_create R (length (openai_requests w)) messages = inr response →
  finish_reason response = "tool_calls" →
  tool_calls (response_message response) = Some calls →
  handle_tool_call R globals (Some calls) (sent messages w) = (Ok results, w2) →
  let answered := messages ++ [Sdk (response_message response)] ++ results in
  answers_each results calls
  ∧ length results = length calls
  ∧ openai_requests w2 = openai_requests w ++ [messages]
  ∧ generation_loop R globals (S fuel) messages w
    = generation_loop R globals fuel answered w2
  ∧ openai_requests (snd (generation_loop R globals (S (S fuel)) messages w))
      !! S (length (openai_requests w)) = Some answered
  ∧ (well_paired messages → well_paired answered)
  ∧ (∀ fuel' messages' w',
       Forall well_paired (openai_requests w') → well_paired messages' →
       Forall well_paired
         (openai_requests (snd (generation_loop R globals fuel' messages' w')))).
Proof.
  intros Hc Hf Hcalls Hh answered.
  assert (Hfb : String.eqb (finish_reason response) "tool_calls" = true).
  { by apply String.eqb_eq. }
  destruct (handle_effect R globals (Some calls) (sent messages w)) as [[Hso _] Hr].
  rewrite Hh in Hso, Hr. simpl in Hso, Hr.
  destruct Hr as (l & [= <-] & Hans).
  assert (Hstep : ∀ f, generation_loop R globals (S f) messages w
                       = generation_loop R globals f answered w2).
  { intros f. apply generation_tools with (r := response); try done.
    by rewrite Hcalls. }
  repeat split; try done.
  - by eapply Forall2_length.
  - rewrite Hstep.
    destruct (generation_effect R globals (S fuel) answered w2) as (_ & _ & H3 & _).
    rewrite Hso, length_app in H3. simpl in H3.
    replace (S (length (openai_requests w))) with (length (openai_requests w) + 1) by lia.
    apply H3. lia.
  - intros Hwp. by eapply well_paired_round.
  - intros fuel' messages' w'.
    by destruct (generation_effect R globals fuel' messages' w') as (_ & _ & _ & H4 & _).
Qed.

Lemma tool_round_answers_each_call_witness :
  answers_each
    [Dict "tool" (braces (dquote +:+ "recorded" +:+ dquote +:+ ": " +:+ dquote +:+ "ok" +:+ dquote))
          (Some "call_1")]
    [contact_call].
Proof.
  refine (proj1 (tool_round_answers_each_call keep_in_touch module_globals 1
            (fresh_messages (system_prompt joshua) [] "My email is a@b.com")
            empty_world (asks [contact_call]) [contact_call] _
            (sent (fresh_messages (system_prompt joshua) [] "My email is a@b.com") empty_world)
            _ _ _ _));
    vm_compute; reflexivity.
Defined.

(** C7. When the argument string of a call does not decode, answering
    that call raises the decoder's error and leaves the world as it was
    (nothing is looked up, nothing is invoked, no default is made up);
    the loop over the calls stops there, after the calls before it; the
    tool round raises out of the generation loop; and [chat] raises out
    of the turn. *)
Theorem malformed_arguments_fail_the_turn (R : runtime) (globals : gmap string binding)
    (tc : tool_call) (e : exn) :
  json_loads R (function_arguments tc) = inl e →
  (∀ w, answer_tool_call R globals tc w = (Raise e, w))
  ∧ (∀ before after results w,
       handle_tool_call_from R globals results (before ++ tc :: after) w
       = match handle_tool_call_from R globals results before w with
         | (Ok _, w') => (Raise e, w')
         | other => other
         end)
  ∧ (∀ fuel messages w response calls,
       openai_create R (length (openai_requests w)) messages = inr response →
       finish_reason response = "tool_calls" →
       tool_calls (response_message response) = Some calls →
       tc ∈ calls →
       ∃ e' w', generation_loop R globals (S fuel) messages w = (Raise e', w'))
  ∧ (∀ fuel self message history w response calls,
       openai_create R (length (openai_requests w))
         (fresh_messages (system_prompt self) history message) = inr response →
       finish_reason response = "tool_calls" →
       tool_calls (response_message response) = Some calls →
       tc ∈ calls →
       ∃ e' w', chat R globals (S fuel) self message history w = (Raise e', w')).
Proof.
  intros He.
  assert (H1 : ∀ w, answer_tool_call R globals tc w = (Raise e, w)).
  { intros w. by apply answer_decode_error. }
  assert (H2 : ∀ before after results w,
       handle_tool_call_from R globals results (before ++ tc :: after) w
       = match handle_tool_call_from R globals results before w with
         | (Ok _, w') => (Raise e, w')
         | other => other
         end).
  { intros before after results w. rewrite handle_from_app. unfold bind at 1.
    destruct (handle_tool_call_from R globals results before w) as [[mid| |] w']; try done.
    simpl. by rewrite (bind_Raise _ _ _ _ _ (H1 w')). }
  assert (H3 : ∀ fuel messages w response calls,
       openai_create R (length (openai_requests w)) messages = inr response →
       finish_reason response = "tool_calls" →
       tool_calls (response_message response) = Some calls →
       tc ∈ calls →
       ∃ e' w', generation_loop R globals (S fuel) messages w = (Raise e', w')).
  { intros fuel messages w response calls Hc Hf Hcalls Hin.
    apply list_elem_of_split in Hin as (before & after & ->).
    assert (Hfb : String.eqb (finish_reason response) "tool_calls" = true).
    { by apply String.eqb_eq. }
    destruct (handle_from_effect R globals before [] (sent messages w)) as [_ Hnd].
    destruct (handle_tool_call_from R globals [] before (sent messages w))
      as [[mid| |] w'] eqn:Hb; simpl in Hnd; [| |done].
    - exists e, w'. eapply generation_tools_raise; try done.
      rewrite Hcalls. simpl. by rewrite H2, Hb.
    - exists e0, w'. eapply generation_tools_raise; try done.
      rewrite Hcalls. simpl. by rewrite H2, Hb. }
  repeat split; try done.
  intros fuel self message history w response calls Hc Hf Hcalls Hin.
  destruct (H3 fuel _ w response calls Hc Hf Hcalls Hin) as (e' & w' & Hg).
  exists e', w'. unfold chat, chat_locals, attempt.
  rewrite (bind_Raise _ _ _ _ _ (bind_Raise _ _ _ _ _ (bind_Raise _ _ _ _ _ Hg))).
  reflexivity.
Qed.

Lemma malformed_arguments_fail_the_turn_witness :
  ∃ e' w', chat garbling module_globals 3 joshua "Wipe it." [] empty_world = (Raise e', w').
Proof.
  refine (proj2 (proj2 (proj2
    (malformed_arguments_fail_the_turn garbling module_globals garbled_call
       (Exn "JSONDecodeError" "Expecting value: line 1 column 1 (char 0)") _)))
    2 joshua "Wipe it." [] empty_world (asks [garbled_call]) [garbled_call] _ _ _ _).
  - vm_compute; reflexivity.
  - vm_compute; reflexivity.
  - reflexivity.
  - reflexivity.
  - apply list_elem_of_here.
Defined.

(** C6, as the code has it.  A call whose arguments decode and whose
    name is bound to nothing in the module namespace is answered with
    the payload [{}], nothing is invoked and nothing raises; and a round
    made of that call lets the generation loop go on to the next
    response of the model, with which it completes. *)
Theorem unknown_tool_gets_empty_object (R : runtime) (globals : gmap string binding)
    (tc : tool_call) (a : pyval) :
  json_loads R (function_arguments tc) = inr a →
  globals !! function_name tc = None →
  let answer := Dict "tool" "{}" (Some (call_id tc)) in
  (∀ w, answer_tool_call R globals tc w = (Ok answer, w))
  ∧ (∀ w, handle_tool_call R globals (Some [tc]) w = (Ok [answer], w))
  ∧ (∀ fuel messages w response next,
       openai_create R (length (openai_requests w)) messages = inr response →
       finish_reason response = "tool_calls" →
       tool_calls (response_message response) = Some [tc] →
       let answered := messages ++ [Sdk (response_message response)] ++ [answer] in
       openai_create R (S (length (openai_requests w))) answered = inr next →
       String.eqb (finish_reason next) "tool_calls" = false →
       generation_loop R globals (S (S fuel)) messages w
       = (Ok (next, answered), sent answered (sent messages w))).
Proof.
  intros Ha Hg answer.
  assert (H1 : ∀ w, answer_tool_call R globals tc w = (Ok answer, w)).
  { intros w. apply answer_fallback with (a := a); auto. }
  assert (H2 : ∀ w, handle_tool_call R globals (Some [tc]) w = (Ok [answer], w)).
  { intros w. simpl. by rewrite (bind_Ok _ _ _ _ _ (H1 w)). }
  repeat split; try done.
  intros fuel messages w response next Hc Hf Hcalls answered Hn Hnf.
  rewrite (generation_tools R globals (S fuel) messages w response [answer] (sent messages w)).
  - apply generation_final; [|done]. simpl. rewrite length_app. simpl.
    replace (length (openai_requests w) + 1) with (S (length (openai_requests w))) by lia.
    done.
  - done.
  - by apply String.eqb_eq.
  - rewrite Hcalls. apply H2.
Qed.

Lemma unknown_tool_gets_empty_object_witness :
  fst (generation_loop hallucinating module_globals 2
         (fresh_messages (system_prompt joshua) [] "Wipe it.") empty_world)
  = Ok (says "Done.",
        fresh_messages (system_prompt joshua) [] "Wipe it."
        ++ [Sdk (response_message (asks [hallucinated_call]))]
        ++ [Dict "tool" "{}" (Some "call_7")]).
Proof.
  refine (f_equal fst (proj2 (proj2
    (unknown_tool_gets_empty_object hallucinating module_globals hallucinated_call
       (PDict []) _ _))
    0 (fresh_messages (system_prompt joshua) [] "Wipe it.") empty_world
    (asks [hallucinated_call]) (says "Done.") _ _ _ _ _));
    vm_compute; reflexivity.
Defined.

(** C6 as stated fails: the arguments are decoded before the name is
    looked up, so an unknown name with arguments that do not decode
    raises. *)
Lemma unknown_tool_malformed_arguments_raise :
  module_globals !! function_name garbled_call = None
  ∧ fst (handle_tool_call garbling module_globals (Some [garbled_call]) empty_world)
    = Raise (Exn "JSONDecodeError" "Expecting value: line 1 column 1 (char 0)").
Proof. split; vm_compute; reflexivity. Qed.

(** C10, as the code has it.  With arguments that decode, a name bound
    in the namespace to a value that is true as a condition is called
    with the decoded arguments, whatever it is ([push] and [Me] are such
    bindings, so is the module [json], whose call raises a [TypeError]:
    that of a value that is not callable when the arguments are a
    dictionary); the payload [{}] is the answer exactly when the name is
    bound to nothing or to a value that is false as a condition. *)
Theorem dispatch_resolves_over_globals (R : runtime) (globals : gmap string binding)
    (tc : tool_call) (a : pyval) :
  json_loads R (function_arguments tc) = inr a →
  (∀ t w, globals !! function_name tc = Some t → binding_truthy t = true →
     answer_tool_call R globals tc w
     = (let* result := call_binding R t a in
        let* content := lift (json_dumps true result) in
        ret (Dict "tool" content (Some (call_id tc)))) w)
  ∧ (∀ w, globals !! function_name tc = None
          ∨ (∃ t, globals !! function_name tc = Some t ∧ binding_truthy t = false) →
     answer_tool_call R globals tc w = (Ok (Dict "tool" "{}" (Some (call_id tc))), w))
  ∧ module_globals !! "push" = Some (Function f_push)
  ∧ module_globals !! "Me" = Some (Opaque "Me")
  ∧ binding_truthy <$> module_globals !! "json" = Some true
  ∧ (∀ w, ∃ msg, fst (call_binding R a_module a w) = Raise (TypeError msg))
  ∧ (∀ kw w, fst (call_binding R a_module (PDict kw) w)
             = Raise (TypeError "'module' object is not callable")).
Proof.
  intros Ha. split; [|split].
  - intros t w Hg Ht. by apply answer_invokes.
  - intros w Hg. by apply answer_fallback with (a := a).
  - repeat split; try (vm_compute; reflexivity).
    intros w. destruct a; eexists; reflexivity.
Qed.

Lemma dispatch_resolves_over_globals_witness :
  fst (answer_tool_call keep_in_touch module_globals
         (ToolCall "call_2" "json" "{}") empty_world)
  = Raise (TypeError "'module' object is not callable").
Proof.
  rewrite (proj1 (dispatch_resolves_over_globals keep_in_touch module_globals
                    (ToolCall "call_2" "json" "{}") (PDict []) eq_refl)
             a_module empty_world);
    vm_compute; reflexivity.
Defined.

(** C10 as stated fails: [__package__] is a module-level binding, its
    value is [None], and a call that names it gets the payload [{}]: the
    binding is not invoked (invoking it would raise). *)
Lemma falsy_global_is_not_invoked :
  module_globals !! "__package__" = Some (Data PNone)
  ∧ handle_tool_call keep_in_touch module_globals
      (Some [ToolCall "call_3" "__package__" "{}"]) empty_world
    = (Ok [Dict "tool" "{}" (Some "call_3")], empty_world)
  ∧ fst (call_binding keep_in_touch (Data PNone) (PDict []) empty_world)
    = Raise (TypeError "'NoneType' object is not callable").
Proof. repeat split; vm_compute; reflexivity. Qed.

(** ** Claims about the tool-call loop *)

Lemma insistent_round fuel messages w :
  generation_loop insistent module_globals (S fuel) messages w
  = generation_loop insistent module_globals fuel
      (messages ++ [Sdk (response_message (asks [contact_call]))]
       ++ [Dict "tool" (braces (dquote +:+ "recorded" +:+ dquote +:+ ": "
                                +:+ dquote +:+ "ok" +:+ dquote)) (Some "call_1")])
      (sent messages w).
Proof.
  apply generation_tools with (r := asks [contact_call]);
    first [reflexivity | vm_compute; reflexivity].
Qed.

Lemma insistent_never_answers fuel : ∀ messages w,
  fst (generation_loop insistent module_globals fuel messages w) = Diverge
  ∧ length (openai_requests (snd (generation_loop insistent module_globals fuel messages w)))
    = length (openai_requests w) + fuel.
Proof.
  induction fuel as [|fuel IH]; intros messages w.
  { simpl. split; [done|lia]. }
  rewrite insistent_round.
  destruct (IH (messages ++ [Sdk (response_message (asks [contact_call]))]
       ++ [Dict "tool" (braces (dquote +:+ "recorded" +:+ dquote +:+ ": "
                                +:+ dquote +:+ "ok" +:+ dquote)) (Some "call_1")])
      (sent messages w)) as [H1 H2].
  split; [done|]. rewrite H2. simpl. rewrite length_app. simpl. lia.
Qed.

(** C5. The tool-call loop has no limit of its own: for every bound [N]
    there is a generator, all of whose responses ask for tool calls,
    under which the loop makes more than [N] requests when it is given
    the fuel for them, and never returns whatever the fuel; and whenever
    the loop does return, the response it returns does not ask for tool
    calls. *)
Theorem generation_loop_has_no_round_limit :
  (∀ N : nat, ∃ R : runtime,
     (∀ n messages, ∃ r,
        openai_create R n messages = inr r ∧ finish_reason r = "tool_calls")
     ∧ ∀ messages w,
         N < length (openai_requests
                       (snd (generation_loop R module_globals (S N) messages w)))
             - length (openai_requests w)
         ∧ ∀ fuel, fst (generation_loop R module_globals fuel messages w) = Diverge)
  ∧ (∀ R globals fuel messages w r messages' w',
       generation_loop R globals fuel messages w = (Ok (r, messages'), w') →
       finish_reason r ≠ "tool_calls").
Proof.
  split.
  - intros N. exists insistent. split.
    + intros n messages. by exists (asks [contact_call]).
    + intros messages w. split.
      * destruct (insistent_never_answers (S N) messages w) as [_ ->]. lia.
      * intros fuel. by destruct (insistent_never_answers fuel messages w).
  - intros R globals fuel messages w r messages' w' H.
    destruct (generation_effect R globals fuel messages w) as (_ & _ & _ & _ & H5).
    rewrite H in H5. simpl in H5. destruct H5 as [H5 _].
    by apply String.eqb_neq.
Qed.

(** ** The evaluator *)

Section Evaluator.

Context (R : runtime).

Lemma dict_lookup_set_same k v d : dict_lookup k (dict_set k v d) = Some v.
Proof.
  induction d as [|[k' v'] d IH]; simpl.
  - by rewrite String.eqb_refl.
  - destruct (String.eqb k k') eqn:E; simpl.
    + by rewrite String.eqb_refl.
    + by rewrite E.
Qed.

Lemma dict_lookup_set_other k k' v d :
  k' ≠ k → dict_lookup k' (dict_set k v d) = dict_lookup k' d.
Proof.
  intros Hne. induction d as [|[k0 v0] d IH]; simpl.
  - by apply String.eqb_neq in Hne as ->.
  - destruct (String.eqb k k0) eqn:E; simpl.
    + apply String.eqb_eq in E as <-. by apply String.eqb_neq in Hne as ->.
    + by rewrite IH.
Qed.

(** On a dictionary the two statements fill in what is missing and keep
    what is there. *)
Lemma completed_dict d :
  ∃ d', completed (PDict d) = inr (PDict d')
    ∧ dict_lookup "is_acceptable" d'
      = Some (default (PBool true) (dict_lookup "is_acceptable" d))
    ∧ dict_lookup "feedback" d'
      = Some (default (PStr "") (dict_lookup "feedback" d)).
Proof.
  unfold completed, fill_missing. simpl. unfold dict_has.
  destruct (dict_lookup "is_acceptable" d) as [acc|] eqn:Ha; simpl; unfold dict_has.
  - destruct (dict_lookup "feedback" d) as [fb|] eqn:Hf; simpl.
    + eexists. split; [done|]. by rewrite Ha, Hf.
    + eexists. split; [done|]. rewrite dict_lookup_set_same.
      by rewrite dict_lookup_set_other, Ha.
  - rewrite dict_lookup_set_other by done.
    destruct (dict_lookup "feedback" d) as [fb|] eqn:Hf; simpl.
    + eexists. split; [done|]. rewrite dict_lookup_set_same.
      by rewrite dict_lookup_set_other, Hf.
    + eexists. split; [done|]. rewrite dict_lookup_set_same.
      by rewrite dict_lookup_set_other, dict_lookup_set_same.
Qed.

Lemma completed_accepting feedback : completed (accepting feedback) = inr (accepting feedback).
Proof. reflexivity. Qed.

Lemma dumps_history history :
  Forall is_dict history →
  ∃ convo, json_dumps false (PList (map pyval_of_message history)) = inr convo.
Proof.
  induction 1 as [|m history Hm Hall IH]; [by eexists|].
  destruct IH as [convo IH]. destruct m as [role c i|]; [|done].
  simpl in *.
  destruct ((fix each (l : list pyval) : exn + list string := _)
              (map pyval_of_message history)) as [e|parts]; [done|].
  destruct i; simpl; by eexists.
Qed.

Lemma dumps_payload prompt :
  ∃ body, json_dumps true (evaluator_payload prompt) = inr body.
Proof. by eexists. Qed.

(** With no key the evaluator accepts at once and posts nothing. *)
Lemma evaluate_unavailable reply message history w :
  env_missing (getenv R "ANTHROPIC_API_KEY") = true →
  _evaluate_with_anthropic R reply message history w
  = (Ok (accepting "Evaluator unavailable"), w).
Proof. intros H. unfold _evaluate_with_anthropic. by rewrite H. Qed.

(** The [try] block, case by case on what the endpoint does. *)
Lemma request_raises payload body w e :
  json_dumps true payload = inr body →
  anthropic_post R (length (anthropic_requests w)) body = PostRaises e
  ∨ anthropic_post R (length (anthropic_requests w)) body = StatusRaises e
  ∨ anthropic_post R (length (anthropic_requests w)) body = BodyRaises e →
  evaluate_request R payload w = (Raise e, posted body w).
Proof.
  intros Hb Ho. unfold evaluate_request. rewrite Hb.
  unfold bind at 1. simpl. unfold bind at 1. unfold post_anthropic.
  by destruct Ho as [-> | [-> | ->]].
Qed.

Lemma request_answered payload body w out :
  json_dumps true payload = inr body →
  anthropic_post R (length (anthropic_requests w)) body = Body out →
  evaluate_request R payload w
  = match response_text out with
    | inl e => (Raise e, posted body w)
    | inr text =>
        match json_loads R text with
        | inl _ => (Ok (accepting (str_take 400 (str_strip text))), posted body w)
        | inr data => lift (completed data) (posted body w)
        end
    end.
Proof.
  intros Hb Ho. unfold evaluate_request. rewrite Hb.
  unfold bind at 1. simpl. unfold bind at 1. unfold post_anthropic. rewrite Ho.
  fold (posted body w).
  destruct (response_text out) as [e|text]; [done|].
  unfold bind at 1. simpl. unfold bind at 1. unfold try_except. simpl.
  destruct (json_loads R text) as [e|data]; simpl.
  - reflexivity.
  - unfold completed, bind.
    destruct (fill_missing "is_acceptable" (PBool true) data) as [e|d]; simpl; [done|].
    by destruct (fill_missing "feedback" (PStr "") d).
Qed.

Lemma evaluate_with_key reply message history w convo body :
  env_missing (getenv R "ANTHROPIC_API_KEY") = false →
  json_dumps false (PList (map pyval_of_message history)) = inr convo →
  json_dumps true (evaluator_payload (evaluator_prompt reply message convo)) = inr body →
  _evaluate_with_anthropic R reply message history w
  = (Ok match anthropic_post R (length (anthropic_requests w)) body with
        | PostRaises e | StatusRaises e | BodyRaises e => accepting (exn_str e)
        | Body out =>
            match response_text out with
            | inl e => accepting (exn_str e)
            | inr text =>
                match json_loads R text with
                | inl _ => accepting (str_take 400 (str_strip text))
                | inr data =>
                    match completed data with
                    | inl e => accepting (exn_str e)
                    | inr d => d
                    end
                end
            end
        end, posted body w).
Proof.
  intros Hk Hc Hb. unfold _evaluate_with_anthropic. rewrite Hk, Hc.
  unfold bind at 1. simpl. unfold try_except.
  destruct (anthropic_post R (length (anthropic_requests w)) body) as [e|e|e|out] eqn:Ho.
  - rewrite (request_raises _ _ _ e Hb) by auto. reflexivity.
  - rewrite (request_raises _ _ _ e Hb) by auto. reflexivity.
  - rewrite (request_raises _ _ _ e Hb) by auto. reflexivity.
  - rewrite (request_answered _ _ _ out Hb Ho).
    destruct (response_text out) as [e|text]; [done|].
    destruct (json_loads R text) as [e|data]; [done|].
    by destruct (completed data).
Qed.

(** The evaluator never touches the log of the generator, and never
    spins. *)
Lemma evaluate_effect reply message history w :
  openai_requests (snd (_evaluate_with_anthropic R reply message history w))
  = openai_requests w
  ∧ fst (_evaluate_with_anthropic R reply message history w) ≠ Diverge.
Proof.
  destruct (env_missing (getenv R "ANTHROPIC_API_KEY")) eqn:Hk.
  { by rewrite evaluate_unavailable. }
  destruct (json_dumps false (PList (map pyval_of_message history))) as [e|convo] eqn:Hc.
  { unfold _evaluate_with_anthropic. rewrite Hk, Hc. by unfold bind. }
  destruct (dumps_payload (evaluator_prompt reply message convo)) as [body Hb].
  by rewrite (evaluate_with_key _ _ _ _ _ _ Hk Hc Hb).
Qed.

End Evaluator.

(** What the evaluator does on a history made of dictionaries, with a
    key configured: it posts one request and returns, whatever the
    endpoint does.
    When the POST, the status check or the decoding of the body raises,
    or the body has not the expected shape, the result is
    [{"is_acceptable": True, "feedback": str(e)}]; when the text of the
    answer is not JSON the result accepts and carries the stripped text
    cut at 400 characters; when the text decodes to an object the object
    is returned with [is_acceptable] filled with [True] and [feedback]
    with the empty string where they were missing, and unchanged where
    they were present.  None of the results produced on a failure is a
    rejection. *)
Theorem evaluator_fails_open (R : runtime) (reply : option string) (message : string)
    (history : list chat_message) (w : world) :
  env_missing (getenv R "ANTHROPIC_API_KEY") = false →
  Forall is_dict history →
  ∃ convo body,
    json_dumps false (PList (map pyval_of_message history)) = inr convo
    ∧ json_dumps true (evaluator_payload (evaluator_prompt reply message convo)) = inr body
    ∧ let outcome := anthropic_post R (length (anthropic_requests w)) body in
      let result := _evaluate_with_anthropic R reply message history w in
      (∃ data, result = (Ok data, posted body w))
      ∧ (∀ e, outcome = PostRaises e ∨ outcome = StatusRaises e ∨ outcome = BodyRaises e →
           result = (Ok (accepting (exn_str e)), posted body w))
      ∧ (∀ out e, outcome = Body out → response_text out = inl e →
           result = (Ok (accepting (exn_str e)), posted body w))
      ∧ (∀ out text e, outcome = Body out → response_text out = inr text →
           json_loads R text = inl e →
           result = (Ok (accepting (str_take 400 (str_strip text))), posted body w))
      ∧ (∀ out text d, outcome = Body out → response_text out = inr text →
           json_loads R text = inr (PDict d) →
           ∃ d', result = (Ok (PDict d'), posted body w)
             ∧ dict_lookup "is_acceptable" d'
               = Some (default (PBool true) (dict_lookup "is_acceptable" d))
             ∧ dict_lookup "feedback" d'
               = Some (default (PStr "") (dict_lookup "feedback" d)))
      ∧ (∀ feedback, rejected (accepting feedback) = inr false).
Proof.
  intros Hk Hh.
  destruct (dumps_history history Hh) as [convo Hc].
  destruct (dumps_payload (evaluator_prompt reply message convo)) as [body Hb].
  exists convo, body. split; [done|]. split; [done|].
  intros outcome result. unfold result, outcome.
  rewrite (evaluate_with_key R _ _ _ _ _ _ Hk Hc Hb).
  repeat split.
  - by eexists.
  - by intros e [-> | [-> | ->]].
  - by intros out e -> ->.
  - by intros out text e -> -> ->.
  - intros out text d -> -> ->.
    destruct (completed_dict d) as (d' & -> & H1 & H2). by exists d'.
Qed.

Lemma evaluator_fails_open_witness :
  fst (_evaluate_with_anthropic rambling (Some "Hello.") "hi"
         (fresh_messages (system_prompt joshua) [] "hi") empty_world)
  = Ok (accepting "Looks fine to me.").
Proof.
  destruct (evaluator_fails_open rambling (Some "Hello.") "hi"
              (fresh_messages (system_prompt joshua) [] "hi") empty_world)
    as (convo & body & Hc & Hb & _ & _ & _ & Ha & _).
  - vm_compute; reflexivity.
  - repeat constructor.
  - rewrite (Ha (PDict [("content", PList [PDict [("type", PStr "text");
                                                  ("text", PStr "  Looks fine to me.  ")]])])
               "  Looks fine to me.  "
               (Exn "JSONDecodeError" "Expecting value: line 1 column 1 (char 0)")).
    + vm_compute; reflexivity.
    + reflexivity.
    + reflexivity.
    + reflexivity.
Defined.

Lemma dumps_sdk_history history :
  Exists (λ m, ¬ is_dict m) history →
  json_dumps false (PList (map pyval_of_message history))
  = inl (not_serializable (PObject "ChatCompletionMessage")).
Proof.
  induction history as [|m history IH]; intros H; [by apply Exists_nil in H|].
  destruct m as [role c i|a].
  - apply Exists_cons in H as [H|H]; [by destruct H|].
    specialize (IH H). simpl in *.
    destruct ((fix each (l : list pyval) : exn + list string := _)
                (map pyval_of_message history)) as [e|parts]; [|done].
    by destruct i.
  - reflexivity.
Qed.

Lemma existsb_named k items :
  In (PStr k) items →
  existsb (λ x, match x with PStr s => String.eqb s k | _ => false end) items = true.
Proof.
  intros H. apply existsb_exists. exists (PStr k). split; [done|]. apply String.eqb_refl.
Qed.

(** C2, on the code.  Two failures of the evaluator that are not turned
    into an accepting result.  When the text of the answer decodes to a
    list that has both names among its items, the two membership tests
    pass, nothing is filled in and the list itself is returned: [chat]
    then raises on [evaluation.get], and the reply is lost.  And the
    conversation is serialized before the [try] block: with a history
    that holds a value [json.dumps] refuses, the evaluator raises and
    nothing is posted. *)
Theorem evaluator_failure_is_not_always_accepted :
  fst (_evaluate_with_anthropic listing (Some "Hello.") "hi"
         (fresh_messages (system_prompt joshua) [] "hi") empty_world)
  = Ok (PList [PStr "is_acceptable"; PStr "feedback"])
  ∧ fst (chat listing module_globals 3 joshua "hi" [] empty_world)
    = Raise (AttributeError "'list' object has no attribute 'get'")
  ∧ (∀ (R : runtime) reply message history w convo body out text items,
       env_missing (getenv R "ANTHROPIC_API_KEY") = false →
       json_dumps false (PList (map pyval_of_message history)) = inr convo →
       json_dumps true (evaluator_payload (evaluator_prompt reply message convo)) = inr body →
       anthropic_post R (length (anthropic_requests w)) body = Body out →
       response_text out = inr text →
       json_loads R text = inr (PList items) →
       In (PStr "is_acceptable") items →
       In (PStr "feedback") items →
       _evaluate_with_anthropic R reply message history w
       = (Ok (PList items), posted body w))
  ∧ _evaluate_with_anthropic listing (Some "Thanks, I will be in touch!")
      "My email is a@b.com, please keep in touch"
      [Dict "user" "My email is a@b.com, please keep in touch" None;
       Sdk (response_message (asks [contact_call]));
       Dict "tool" recorded_content (Some "call_1")] empty_world
    = (Raise (TypeError "Object of type ChatCompletionMessage is not JSON serializable"),
       empty_world)
  ∧ (∀ (R : runtime) reply message history w,
       env_missing (getenv R "ANTHROPIC_API_KEY") = false →
       Exists (λ m, ¬ is_dict m) history →
       _evaluate_with_anthropic R reply message history w
       = (Raise (TypeError "Object of type ChatCompletionMessage is not JSON serializable"),
          w)).
Proof.
  split; [vm_compute; reflexivity|]. split; [vm_compute; reflexivity|].
  split; [|split; [vm_compute; reflexivity|]].
  - intros R reply message history w convo body out text items Hk Hc Hb Ho Ht Hl H1 H2.
    rewrite (evaluate_with_key R _ _ _ _ _ _ Hk Hc Hb). rewrite Ho, Ht, Hl.
    unfold completed, fill_missing. simpl.
    rewrite (existsb_named _ _ H1). simpl. by rewrite (existsb_named _ _ H2).
  - intros R reply message history w Hk Hh.
    unfold _evaluate_with_anthropic. rewrite Hk.
    by rewrite (dumps_sdk_history history Hh).
Qed.

(** ** The turn *)

Section Turn.

Context (R : runtime) (globals : gmap string binding).

Lemma attempt_evaluates fuel n message messages w r messages' w1 h :
  generation_loop R globals fuel messages w = (Ok (r, messages'), w1) →
  eval_history_of messages' = inr h →
  attempt R globals fuel n message messages w
  = (let* evaluation :=
       _evaluate_with_anthropic R (content (response_message r)) message h in
     ret (TurnState messages' (content (response_message r)) evaluation n)) w1.
Proof.
  intros Hg Hh. unfold attempt. rewrite (bind_Ok _ _ _ _ _ Hg). simpl.
  unfold bind at 1. by rewrite Hh.
Qed.

Lemma attempt_history_fails fuel n message messages w r messages' w1 e :
  generation_loop R globals fuel messages w = (Ok (r, messages'), w1) →
  eval_history_of messages' = inl e →
  attempt R globals fuel n message messages w = (Raise e, w1).
Proof.
  intros Hg Hh. unfold attempt. rewrite (bind_Ok _ _ _ _ _ Hg). simpl.
  unfold bind at 1. by rewrite Hh.
Qed.

Lemma attempt_attempts fuel n message messages w st w' :
  attempt R globals fuel n message messages w = (Ok st, w') → attempts st = n.
Proof.
  unfold attempt, bind.
  destruct (generation_loop R globals fuel messages w) as [[[r messages']| |] w1]; try done.
  destruct (eval_history_of messages') as [e|h]; simpl; [done|].
  destruct (_evaluate_with_anthropic R _ message h w1) as [[ev| |] w2]; try done.
  simpl. by intros [= <- _].
Qed.

Lemma attempt_first_request fuel n message messages w :
  openai_requests (snd (attempt R globals (S fuel) n message messages w))
    !! length (openai_requests w) = Some messages.
Proof.
  destruct (generation_effect R globals (S fuel) messages w) as (_ & _ & H3 & _).
  specialize (H3 ltac:(lia)).
  unfold attempt. unfold bind at 1.
  destruct (generation_loop R globals (S fuel) messages w)
    as [[[r messages']| |] w1]; simpl in H3; try done.
  unfold bind at 1. destruct (eval_history_of messages') as [e|h]; simpl; [done|].
  destruct (evaluate_effect R (content (response_message r)) message h w1) as [He _].
  unfold bind.
  destruct (_evaluate_with_anthropic R (content (response_message r)) message h w1)
    as [[ev| |] w2]; simpl in *; by rewrite He.
Qed.

Lemma retry_round_attempts fuel base message history st w st' w' :
  retry_round R globals fuel base message history st w = (Ok st', w') →
  attempts st' = attempts st + 1.
Proof.
  unfold retry_round. unfold bind at 1.
  destruct (get_method (evaluation st) "feedback" (PStr "")) as [e|feedback]; simpl; [done|].
  apply attempt_attempts.
Qed.

Lemma retry_loop_stops fuel gen_fuel base message history st w b :
  rejected (evaluation st) = inr b →
  b = false ∨ (2 ≤ attempts st)%nat →
  retry_loop R globals (S fuel) gen_fuel base message history st w = (Ok st, w).
Proof.
  intros Hr Hb. simpl. unfold bind. rewrite Hr. simpl.
  destruct Hb as [-> | Hb]; [done|].
  destruct (Nat.ltb_spec (attempts st) 2); [lia|]. by rewrite andb_false_r.
Qed.

Lemma retry_loop_retries fuel gen_fuel base message history st w :
  rejected (evaluation st) = inr true →
  (attempts st < 2)%nat →
  retry_loop R globals (S fuel) gen_fuel base message history st w
  = (let* st' := retry_round R globals gen_fuel base message history st in
     retry_loop R globals fuel gen_fuel base message history st') w.
Proof.
  intros Hr Ha. simpl. unfold bind at 1. rewrite Hr. simpl.
  by destruct (Nat.ltb_spec (attempts st) 2); [|lia].
Qed.



(** When the tool-call loop returns after at least one tool round,
    [messages] holds the SDK's message object of the first round right
    after the initial sequence. *)
Lemma generation_extension fuel : ∀ messages w r messages' w',
  generation_loop R globals fuel messages w = (Ok (r, messages'), w') →
  (messages' = messages
   ∧ openai_create R (length (openai_requests w)) messages = inr r)
  ∨ ∃ r1 rest,
      openai_create R (length (openai_requests w)) messages = inr r1
      ∧ finish_reason r1 = "tool_calls"
      ∧ messages' = messages ++ Sdk (response_message r1) :: rest.
Proof.
  induction fuel as [|fuel IH]; intros messages w r messages' w'; [done|].
  destruct (openai_create R (length (openai_requests w)) messages) as [e|r1] eqn:Hc.
  { simpl. by rewrite (bind_Raise _ _ _ _ _ (create_inl _ _ _ _ Hc)). }
  destruct (String.eqb (finish_reason r1) "tool_calls") eqn:Hf.
  2:{ rewrite (generation_final _ _ _ _ _ _ Hc Hf). intros [= <- <- _]. by left. }
  destruct (handle_tool_call R globals (tool_calls (response_message r1)) (sent messages w))
    as [[results| |] w2] eqn:Hh.
  - rewrite (generation_tools _ _ _ _ _ _ _ _ Hc Hf Hh). intros Hg. right.
    exists r1. apply String.eqb_eq in Hf.
    destruct (IH _ _ _ _ _ Hg) as [[-> _] | (r2 & rest & _ & _ & ->)].
    + by exists results.
    + exists (results ++ Sdk (response_message r2) :: rest).
      repeat split; try done. by rewrite <- !app_assoc.
  - by rewrite (generation_tools_raise _ _ _ _ _ _ _ _ Hc Hf Hh).
  - simpl. rewrite (bind_Ok _ _ _ _ _ (create_inr _ _ _ _ Hc)). rewrite Hf.
    by rewrite (bind_Diverge _ _ _ _ Hh).
Qed.

(** A turn whose first attempt went through a tool round fails when the
    history for the evaluator is built, whatever the evaluator is. *)
Lemma tool_round_breaks_the_turn fuel self message history w r1 r messages' w' :
  Forall is_dict history →
  openai_create R (length (openai_requests w))
    (fresh_messages (system_prompt self) history message) = inr r1 →
  finish_reason r1 = "tool_calls" →
  generation_loop R globals fuel (fresh_messages (system_prompt self) history message) w
  = (Ok (r, messages'), w') →
  chat R globals fuel self message history w
  = (Raise (TypeError "'ChatCompletionMessage' object is not subscriptable"), w').
Proof.
  intros Hh Hc Hf Hg.
  destruct (generation_extension _ _ _ _ _ _ Hg) as [[_ Hc'] | (r2 & rest & Hc' & _ & ->)].
  - rewrite Hc in Hc'. injection Hc' as <-.
    destruct (generation_effect R globals fuel
                (fresh_messages (system_prompt self) history message) w)
      as (_ & _ & _ & _ & H5).
    rewrite Hg in H5. simpl in H5. destruct H5 as [H5 _].
    apply String.eqb_neq in H5. done.
  - unfold chat, chat_locals.
    assert (Ha : attempt R globals fuel 0 message
                   (fresh_messages (system_prompt self) history message) w
                 = (Raise (TypeError "'ChatCompletionMessage' object is not subscriptable"), w')).
    { eapply attempt_history_fails; [exact Hg|].
      apply eval_history_sdk. unfold fresh_messages.
      apply Forall_app. split; [by repeat constructor|].
      apply Forall_app. split; [done|by repeat constructor]. }
    by rewrite (bind_Raise _ _ _ _ _ (bind_Raise _ _ _ _ _ Ha)).
Qed.

End Turn.

(** ** Substrings of a concatenation *)

Lemma prefix_append s t : String.prefix s (s +:+ t) = true.
Proof.
  induction s as [|c s IH]; simpl; [by destruct t|].
  by destruct (Ascii.ascii_dec c c).
Qed.

Lemma str_contains_unfold needle haystack :
  str_contains needle haystack
  = String.prefix needle haystack
    || match haystack with
       | EmptyString => false
       | String _ rest => str_contains needle rest
       end.
Proof. by destruct haystack. Qed.

Lemma str_contains_here s t : str_contains s (s +:+ t) = true.
Proof. rewrite str_contains_unfold. by rewrite prefix_append. Qed.

Lemma str_contains_skip a s t :
  str_contains s t = true → str_contains s (a +:+ t) = true.
Proof.
  intros H. induction a as [|c a IH]; simpl; [done|].
  rewrite IH. apply orb_true_r.
Qed.

(** ** Claims about the turn *)

(** C4. When the evaluation rejects and the cap is not reached, the
    loop runs a retry round; the round is a fresh attempt on the sequence
    made of a new system message, the original history and the original
    user turn, and that sequence is the first request the round sends to
    the generator; the new system message is the original system prompt
    followed by the rejection block, in which the previous reply and the
    feedback of the evaluation stand as they are; and the round does not
    depend on the [messages] the failed attempt left, tool rounds
    included. *)
Theorem retry_round_restarts_from_the_turn (R : runtime) (globals : gmap string binding)
    (fuel gen_fuel : nat) (base message : string) (history : list chat_message)
    (st : turn_state) (w : world) :
  rejected (evaluation st) = inr true →
  (attempts st < 2)%nat →
  ∃ d feedback,
    evaluation st = PDict d
    ∧ feedback = default (PStr "") (dict_lookup "feedback" d)
    ∧ let improved_system :=
        base +:+ rejection_block (py_str_opt (reply st)) (py_str feedback) in
      let retry_messages :=
        [Dict "system" improved_system None] ++ history ++ [Dict "user" message None] in
      retry_loop R globals (S fuel) (S gen_fuel) base message history st w
      = (let* st' := retry_round R globals (S gen_fuel) base message history st in
         retry_loop R globals fuel (S gen_fuel) base message history st') w
      ∧ retry_round R globals (S gen_fuel) base message history st w
        = attempt R globals (S gen_fuel) (attempts st + 1) message retry_messages w
      ∧ openai_requests (snd (retry_round R globals (S gen_fuel) base message history st w))
          !! length (openai_requests w) = Some retry_messages
      ∧ (∀ messages',
           retry_round R globals (S gen_fuel) base message history
             (TurnState messages' (reply st) (evaluation st) (attempts st)) w
           = retry_round R globals (S gen_fuel) base message history st w)
      ∧ (∀ r, reply st = Some r → str_contains r improved_system = true)
      ∧ (∀ f, feedback = PStr f → str_contains f improved_system = true).
Proof.
  intros Hr Ha.
  destruct (evaluation st) as [| | | | |d|] eqn:He; try done.
  exists d, (default (PStr "") (dict_lookup "feedback" d)).
  split; [done|]. split; [done|].
  intros improved_system retry_messages.
  assert (Hround : retry_round R globals (S gen_fuel) base message history st w
                   = attempt R globals (S gen_fuel) (attempts st + 1) message retry_messages w).
  { unfold retry_round. rewrite He. reflexivity. }
  repeat split.
  - apply retry_loop_retries; [by rewrite He|done].
  - done.
  - rewrite Hround. apply attempt_first_request.
  - intros messages'. unfold retry_round. simpl. by rewrite He.
  - intros r Hreply. unfold improved_system, rejection_block. rewrite Hreply. simpl py_str_opt.
    do 7 apply str_contains_skip. apply str_contains_here.
  - intros f Hf. unfold improved_system, rejection_block. rewrite Hf. simpl py_str.
    do 12 apply str_contains_skip. apply str_contains_here.
Qed.

Lemma retry_round_restarts_from_the_turn_witness :
  openai_requests (snd strict_second) !! length (openai_requests (snd strict_first))
  = Some ([Dict "system"
             (system_prompt joshua +:+ rejection_block "yo" "too informal") None]
          ++ [] ++ [Dict "user" "hi" None]).
Proof.
  destruct (retry_round_restarts_from_the_turn strict module_globals 2 2
              (system_prompt joshua) "hi" [] (result_state strict_first) (snd strict_first))
    as (d & feedback & Hd & Hfb & _ & _ & Hreq & _).
  - vm_compute; reflexivity.
  - vm_compute; lia.
  - unfold strict_second. rewrite Hreq. rewrite Hfb.
    assert (Hev : evaluation (result_state strict_first)
                  = PDict [("is_acceptable", PBool false); ("feedback", PStr "too informal")])
      by (vm_compute; reflexivity).
    rewrite Hev in Hd. injection Hd as <-. reflexivity.
Defined.

(** Without the key, in a turn whose first attempt gets as far as the
    evaluator: the evaluator returns
    [{"is_acceptable": True, "feedback": "Evaluator unavailable"}] and
    the world is as before, nothing having been posted; the turn returns
    the reply of that attempt, in the world the generation left, with
    [attempts] at zero: no retry round and no request to the evaluator. *)
Theorem evaluator_unavailable_means_no_retry (R : runtime) :
  env_missing (getenv R "ANTHROPIC_API_KEY") = true →
  (∀ reply message history w,
     _evaluate_with_anthropic R reply message history w
     = (Ok (accepting "Evaluator unavailable"), w))
  ∧ (∀ globals fuel self message history w response messages' w' h,
       generation_loop R globals fuel
         (fresh_messages (system_prompt self) history message) w
       = (Ok (response, messages'), w') →
       eval_history_of messages' = inr h →
       chat_locals R globals fuel self message history w
       = (Ok (TurnState messages' (content (response_message response))
                (accepting "Evaluator unavailable") 0), w')
       ∧ chat R globals fuel self message history w
         = (Ok (content (response_message response)), w')
       ∧ anthropic_requests w' = anthropic_requests w).
Proof.
  intros Hk. split.
  { intros. by apply evaluate_unavailable. }
  intros globals fuel self message history w response messages' w' h Hg Hh.
  assert (Hl : chat_locals R globals fuel self message history w
       = (Ok (TurnState messages' (content (response_message response))
                (accepting "Evaluator unavailable") 0), w')).
  { unfold chat_locals.
    assert (Ha : attempt R globals fuel 0 message
                   (fresh_messages (system_prompt self) history message) w
                 = (Ok (TurnState messages' (content (response_message response))
                          (accepting "Evaluator unavailable") 0), w')).
    { rewrite (attempt_evaluates _ _ _ _ _ _ _ _ _ _ _ Hg Hh).
      by rewrite (bind_Ok _ _ _ _ _ (evaluate_unavailable R _ _ _ _ Hk)). }
    rewrite (bind_Ok _ _ _ _ _ Ha).
    destruct fuel as [|fuel]; [done|].
    by apply retry_loop_stops with (b := false); [|left]. }
  repeat split.
  - done.
  - unfold chat. by rewrite (bind_Ok _ _ _ _ _ Hl).
  - destruct (generation_effect R globals fuel
                (fresh_messages (system_prompt self) history message) w)
      as (_ & H2 & _).
    by rewrite Hg in H2.
Qed.

Lemma evaluator_unavailable_means_no_retry_witness :
  fst (chat unevaluated module_globals 1 joshua "hi" [] empty_world) = Ok (Some "Hello.").
Proof.
  destruct (evaluator_unavailable_means_no_retry unevaluated) as [_ H].
  - reflexivity.
  - destruct (H module_globals 1 joshua "hi" [] empty_world (says "Hello.")
                (fresh_messages (system_prompt joshua) [] "hi")
                (sent (fresh_messages (system_prompt joshua) [] "hi") empty_world)
                (fresh_messages (system_prompt joshua) [] "hi")) as (_ & -> & _).
    + vm_compute; reflexivity.
    + vm_compute; reflexivity.
    + reflexivity.
Defined.

(** C3, on the code.  Without the key the evaluator does return
    [{"is_acceptable": True, "feedback": "Evaluator unavailable"}] for
    every input, and posts nothing.  But [chat] does not return the first
    reply for every input: in the turn where the generator first asks for
    [record_user_details] and then gives its final text, [chat] raises
    before it calls the evaluator, while it builds the history from the
    messages of the attempt, one of which is the SDK's object.  No key
    being set changes nothing to that, and the same happens without the
    key in every turn whose first attempt goes through a tool round. *)
Theorem unconfigured_evaluator_does_not_save_a_tool_round_turn :
  env_missing (getenv keep_in_touch "ANTHROPIC_API_KEY") = true
  ∧ (∀ (R : runtime) reply message history w,
       env_missing (getenv R "ANTHROPIC_API_KEY") = true →
       _evaluate_with_anthropic R reply message history w
       = (Ok (accepting "Evaluator unavailable"), w))
  ∧ chat keep_in_touch module_globals 2 joshua
      "My email is a@b.com, please keep in touch" [] empty_world
    = (Raise (TypeError "'ChatCompletionMessage' object is not subscriptable"),
       World
         [fresh_messages (system_prompt joshua) [] "My email is a@b.com, please keep in touch";
          fresh_messages (system_prompt joshua) [] "My email is a@b.com, please keep in touch"
          ++ [Sdk (response_message (asks [contact_call]));
              Dict "tool" recorded_content (Some "call_1")]]
         [] [])
  ∧ (∀ (R : runtime) globals fuel self message history w r1 r messages' w',
       env_missing (getenv R "ANTHROPIC_API_KEY") = true →
       Forall is_dict history →
       openai_create R (length (openai_requests w))
         (fresh_messages (system_prompt self) history message) = inr r1 →
       finish_reason r1 = "tool_calls" →
       generation_loop R globals fuel
         (fresh_messages (system_prompt self) history message) w
       = (Ok (r, messages'), w') →
       chat R globals fuel self message history w
       = (Raise (TypeError "'ChatCompletionMessage' object is not subscriptable"), w')).
Proof.
  split; [reflexivity|]. split; [|split].
  - intros R reply message history w Hk. by apply evaluate_unavailable.
  - vm_compute; reflexivity.
  - intros R globals fuel self message history w r1 r messages' w' _ Hh Hc Hf Hg.
    by eapply tool_round_breaks_the_turn.
Qed.



(** C8, on the code.  The turn of the scenario: the generator asks for
    [record_user_details], the dispatch answers, the generator then
    gives its final text, and [chat] raises when it builds the history
    for the evaluator, because the assistant message it appended is the
    SDK's object and cannot be subscripted.  The same happens in every
    turn whose first attempt goes through a tool round. *)
Theorem tool_round_turn_raises :
  fst (generation_loop keep_in_touch module_globals 2
         (fresh_messages (system_prompt joshua) [] "My email is a@b.com, please keep in touch")
         empty_world)
  = Ok (says "Thanks, I will be in touch!",
        fresh_messages (system_prompt joshua) [] "My email is a@b.com, please keep in touch"
        ++ [Sdk (response_message (asks [contact_call]));
            Dict "tool" (braces (dquote +:+ "recorded" +:+ dquote +:+ ": "
                                 +:+ dquote +:+ "ok" +:+ dquote)) (Some "call_1")])
  ∧ fst (chat keep_in_touch module_globals 2 joshua
           "My email is a@b.com, please keep in touch" [] empty_world)
    = Raise (TypeError "'ChatCompletionMessage' object is not subscriptable")
  ∧ (∀ R globals fuel self message history w r1 r messages' w',
       Forall is_dict history →
       openai_create R (length (openai_requests w))
         (fresh_messages (system_prompt self) history message) = inr r1 →
       finish_reason r1 = "tool_calls" →
       generation_loop R globals fuel
         (fresh_messages (system_prompt self) history message) w
       = (Ok (r, messages'), w') →
       chat R globals fuel self message history w
       = (Raise (TypeError "'ChatCompletionMessage' object is not subscriptable"), w')).
Proof.
  split; [vm_compute; reflexivity|]. split; [vm_compute; reflexivity|].
  intros. by eapply tool_round_breaks_the_turn.
Qed.

(** * Further properties of the code *)

(** ** Strings *)

Lemma str_append_cons c a b : String c a +:+ b = String c (a +:+ b).
Proof. reflexivity. Qed.

Lemma str_append_nil_r s : s +:+ "" = s.
Proof. induction s as [|c s IH]; [done|]. by rewrite str_append_cons, IH. Qed.

Lemma str_append_assoc a b c : (a +:+ b) +:+ c = a +:+ (b +:+ c).
Proof. induction a as [|x a IH]; [done|]. by rewrite !str_append_cons, IH. Qed.

Lemma str_take_length n : ∀ s, (String.length (str_take n s) ≤ n)%nat.
Proof.
  induction n as [|n IH]; intros [|c s]; simpl; try lia.
  specialize (IH s). lia.
Qed.

Lemma str_take_prefix n : ∀ s, String.prefix (str_take n s) s = true.
Proof.
  induction n as [|n IH]; intros [|c s]; simpl; try done.
  by destruct (Ascii.ascii_dec c c).
Qed.

Lemma str_take_all n : ∀ s, (String.length s ≤ n)%nat → str_take n s = s.
Proof.
  induction n as [|n IH]; intros [|c s]; simpl; intros H; try done; try lia.
  rewrite IH; [done|lia].
Qed.

(** ** [Me.__init__] *)

Lemma extract_pages_acc pages : ∀ acc,
  extract_pages acc pages = acc +:+ str_concat (map page_text (before_failure pages)).
Proof.
  induction pages as [|p pages IH]; intros acc; simpl.
  { by rewrite str_append_nil_r. }
  destruct p as [[text|]|e]; simpl.
  - destruct text as [|c text]; simpl.
    + apply IH.
    + rewrite IH. by rewrite str_append_assoc.
  - apply IH.
  - by rewrite str_append_nil_r.
Qed.

(** X1. [Me()] succeeds exactly when [OpenAI()] does not raise and
    [me/summary.txt] can be read, whatever happens with the two PDFs,
    and it raises the exception of the one that failed.  The persona is
    then named Joshua, its summary is the content of the file, and each
    of [linkedin] and [resume] is the concatenation, in page order, of
    the texts of the pages before the first page whose extraction raises
    (the empty string when the reader itself raises): the text gathered
    before a failing page is kept. *)
Theorem init_reads_what_it_can (d : disk) :
  (∀ me, init d = inr me ↔
     openai_client d = None
     ∧ ∃ s, summary_txt d = inr s
            ∧ me = {| name := "Joshua"; linkedin := read_pdf (linkedin_pdf d);
                      resume := read_pdf (resume_pdf d); summary := s |})
  ∧ (∀ e, init d = inl e ↔
       openai_client d = Some e ∨ (openai_client d = None ∧ summary_txt d = inl e))
  ∧ (∀ e, read_pdf (PdfRaises e) = "")
  ∧ (∀ pages, read_pdf (PdfPages pages)
              = str_concat (map page_text (before_failure pages)))
  ∧ (∀ before e after,
       read_pdf (PdfPages (before ++ PageRaises e :: after)) = read_pdf (PdfPages before)).
Proof.
  assert (Hpages : ∀ pages, read_pdf (PdfPages pages)
                            = str_concat (map page_text (before_failure pages))).
  { intros pages. unfold read_pdf. by rewrite extract_pages_acc. }
  split; [|split; [|split; [|split]]].
  - intros me. unfold init.
    destruct (openai_client d) as [e|]; [split; [done|by intros [? _]]|].
    destruct (summary_txt d) as [e|s].
    + split; [done|]. by intros (_ & s & ? & _).
    + split.
      * intros [= <-]. split; [done|]. by exists s.
      * intros (_ & s' & [= <-] & ->). done.
  - intros e. unfold init.
    destruct (openai_client d) as [e'|].
    + split; [intros [= <-]; by left|]. by intros [[= <-] | [? _]].
    + destruct (summary_txt d) as [e'|s].
      * split; [intros [= <-]; by right|]. by intros [? | [_ [= <-]]].
      * split; [done|]. by intros [? | [_ ?]].
  - done.
  - done.
  - intros before e after. rewrite !Hpages. f_equal. f_equal.
    induction before as [|p before IH]; simpl; [done|].
    destruct (page_raises p); [done|]. by rewrite IH.
Qed.

Example init_sample :
  init sample_disk
  = inr {| name := "Joshua"; linkedin := "Page one. "; resume := ""; summary := "Engineer." |}.
Proof. reflexivity. Qed.

(** ** The tools and their schemas *)

Lemma filter_negb_nil {A} (f : A → bool) (l : list A) :
  filter (λ x, negb (f x)) l = [] ↔ forallb f l = true.
Proof.
  induction l as [|a l IH]; [done|].
  rewrite filter_cons. simpl. destruct (f a) eqn:E; simpl; [exact IH|done].
Qed.

Lemma bind_kwargs_bound fname required defaults kw :
  forallb (λ kv, str_in kv.1 (required ++ map fst defaults)) kw = true →
  forallb (λ p, dict_has p kw) required = true →
  bind_kwargs fname required defaults (PDict kw)
  = inr (map (λ p, default PNone (dict_lookup p kw)) required
         ++ map (λ d, default d.2 (dict_lookup d.1 kw)) defaults).
Proof.
  intros H1 H2. unfold bind_kwargs.
  apply filter_negb_nil in H1 as ->. by apply filter_negb_nil in H2 as ->.
Qed.

Lemma bind_kwargs_refused fname required defaults kw :
  forallb (λ p, dict_has p kw) required
  && forallb (λ kv, str_in kv.1 (required ++ map fst defaults)) kw = false →
  ∃ msg, bind_kwargs fname required defaults (PDict kw) = inl (TypeError msg).
Proof.
  intros H. unfold bind_kwargs.
  destruct (filter (λ kv, negb (str_in kv.1 (required ++ map fst defaults))) kw)
    as [|[k v] l] eqn:E1; [|by eexists].
  destruct (filter (λ p, negb (dict_has p kw)) required) as [|p l] eqn:E2; [|by eexists].
  apply filter_negb_nil in E1, E2. by rewrite E1, E2 in H.
Qed.

Lemma push_effect (R : runtime) text w :
  push R (PStr text) w
  = (Ok PNone, if pushover_configured R then notified text w else w).
Proof. unfold push, pushover_configured. by destruct (_ || _). Qed.

Lemma string_valued_lookup kw k v :
  string_valued kw = true → dict_lookup k kw = Some v → ∃ s, v = PStr s.
Proof.
  induction kw as [|[k' v'] kw IH]; simpl; [done|].
  intros H Hl. apply andb_true_iff in H as [Hv Hkw].
  destruct (String.eqb k k').
  - injection Hl as <-. destruct v'; try discriminate. by eexists.
  - by apply IH.
Qed.

Lemma string_valued_field kw k d :
  string_valued kw = true →
  py_str (default (PStr d) (dict_lookup k kw)) = field_or k d kw.
Proof.
  intros H. unfold field_or. destruct (dict_lookup k kw) as [v|] eqn:E; [|done].
  by destruct (string_valued_lookup kw k v H E) as [s ->].
Qed.

Lemma record_user_details_call (R : runtime) kw w :
  schema_accepts record_user_details_json kw = true →
  call_binding R (Function f_record_user_details) (PDict kw) w
  = (Ok recorded_ok, if pushover_configured R then notified (contact_text kw) w else w).
Proof.
  intros H. apply andb_true_iff in H as [H1 H2].
  unfold call_binding.
  rewrite (bind_Ok _ _ _ _ _
             (f_equal (λ r, lift r w)
                (bind_kwargs_bound "record_user_details" ["email"]
                   [("name", PStr "Name not provided"); ("notes", PStr "not provided")]
                   kw H2 H1))).
  simpl. unfold record_user_details.
  by rewrite (bind_Ok _ _ _ _ _ (push_effect R _ w)).
Qed.

Lemma record_unknown_question_call (R : runtime) kw w :
  schema_accepts record_unknown_question_json kw = true →
  call_binding R (Function f_record_unknown_question) (PDict kw) w
  = (Ok recorded_ok,
     if pushover_configured R
     then notified ("Unanswered question: "
                    +:+ py_str (default PNone (dict_lookup "question" kw))) w
     else w).
Proof.
  intros H. apply andb_true_iff in H as [H1 H2].
  unfold call_binding.
  rewrite (bind_Ok _ _ _ _ _
             (f_equal (λ r, lift r w)
                (bind_kwargs_bound "record_unknown_question" ["question"] [] kw H2 H1))).
  simpl. unfold record_unknown_question.
  by rewrite (bind_Ok _ _ _ _ _ (push_effect R _ w)).
Qed.

Lemma refused_call (R : runtime) f fname required defaults kw w
    (body : list pyval → M pyval) :
  (∀ arguments,
     call_binding R (Function f) arguments
     = (let* args := lift (bind_kwargs fname required defaults arguments) in body args)) →
  forallb (λ p, dict_has p kw) required
  && forallb (λ kv, str_in kv.1 (required ++ map fst defaults)) kw = false →
  ∃ msg, call_binding R (Function f) (PDict kw) w = (Raise (TypeError msg), w).
Proof.
  intros Hcall H. destruct (bind_kwargs_refused fname _ _ _ H) as [msg Hmsg].
  exists msg. rewrite Hcall. unfold bind. by rewrite Hmsg.
Qed.

(** X2. Each schema of [tools] names a function of the module, and the
    function takes exactly the argument objects the schema allows: when
    the object has every required property and none the schema does not
    declare, the call returns [{"recorded": "ok"}]; otherwise binding the
    arguments raises [TypeError] and nothing has been sent.  The types
    the schema gives for the values are not checked. *)
Theorem declared_tools_take_what_their_schemas_allow :
  Forall (λ schema,
            ∃ f, module_globals !! schema_name schema = Some (Function f)
              ∧ ∀ (R : runtime) kw w,
                  (schema_accepts schema kw = true →
                   ∃ w', call_binding R (Function f) (PDict kw) w = (Ok recorded_ok, w'))
                  ∧ (schema_accepts schema kw = false →
                     ∃ msg, call_binding R (Function f) (PDict kw) w
                            = (Raise (TypeError msg), w)))
         declared_schemas.
Proof.
  repeat constructor.
  - exists f_record_user_details. split; [vm_compute; reflexivity|].
    intros R kw w. split; intros H.
    + eexists. by apply record_user_details_call.
    + eapply (refused_call R f_record_user_details "record_user_details" ["email"]
                [("name", PStr "Name not provided"); ("notes", PStr "not provided")]);
        [reflexivity|exact H].
  - exists f_record_unknown_question. split; [vm_compute; reflexivity|].
    intros R kw w. split; intros H.
    + eexists. by apply record_unknown_question_call.
    + eapply (refused_call R f_record_unknown_question "record_unknown_question"
                ["question"] []); [reflexivity|exact H].
Qed.

(** X3. A call of [record_user_details] whose arguments decode to an
    object the schema allows, with a string for every value as the
    schema declares, is answered with the payload [{"recorded": "ok"}]
    under the id of the call.  When both Pushover credentials are set,
    one notification has been posted: the text with the email as given
    and "Name not provided" and "not provided" standing for a missing
    name and missing notes; when one of the credentials is unset or
    empty nothing is posted, and the payload is the same. *)
Theorem contact_details_reach_pushover (R : runtime) (globals : gmap string binding)
    (tc : tool_call) (kw : list (string * pyval)) (email : string) (w : world) :
  json_loads R (function_arguments tc) = inr (PDict kw) →
  globals !! function_name tc = Some (Function f_record_user_details) →
  schema_accepts record_user_details_json kw = true →
  string_valued kw = true →
  dict_lookup "email" kw = Some (PStr email) →
  answer_tool_call R globals tc w
  = (Ok (Dict "tool" recorded_content (Some (call_id tc))),
     if pushover_configured R
     then notified ("New contact: " +:+ field_or "name" "Name not provided" kw
                    +:+ nl +:+ "Email: " +:+ email
                    +:+ nl +:+ "Notes: " +:+ field_or "notes" "not provided" kw) w
     else w).
Proof.
  intros Ha Hg Hs Hv He.
  rewrite (answer_invokes R globals tc _ _ w Ha Hg eq_refl).
  rewrite (bind_Ok _ _ _ _ _ (record_user_details_call R kw w Hs)).
  unfold contact_text.
  rewrite !(string_valued_field kw _ _ Hv). by rewrite He.
Qed.

Lemma contact_details_reach_pushover_witness :
  pushover_requests
    (snd (answer_tool_call (scripted pushover_env [] []) module_globals contact_call
            empty_world))
  = [PStr ("New contact: Name not provided" +:+ nl +:+ "Email: a@b.com" +:+ nl
           +:+ "Notes: not provided")].
Proof.
  rewrite (contact_details_reach_pushover (scripted pushover_env [] []) module_globals
             contact_call [("email", PStr "a@b.com")] "a@b.com" empty_world);
    vm_compute; reflexivity.
Defined.

(** X4. Dispatch does not deduplicate: a round that carries the same
    [record_unknown_question] call [n] times is answered with [n] equal
    payloads and, Pushover being configured, posts the same notification
    [n] times. *)
Theorem repeated_calls_notify_each_time (R : runtime) (globals : gmap string binding)
    (tc : tool_call) (q : pyval) (n : nat) (results : list chat_message) (w : world) :
  json_loads R (function_arguments tc) = inr (PDict [("question", q)]) →
  globals !! function_name tc = Some (Function f_record_unknown_question) →
  pushover_configured R = true →
  handle_tool_call_from R globals results (replicate n tc) w
  = (Ok (results ++ replicate n (Dict "tool" recorded_content (Some (call_id tc)))),
     World (openai_requests w) (anthropic_requests w)
           (pushover_requests w
            ++ replicate n (PStr ("Unanswered question: " +:+ py_str q)))).
Proof.
  intros Ha Hg Hp. revert results w.
  induction n as [|n IH]; intros results w; simpl.
  { rewrite !app_nil_r. by destruct w. }
  assert (Hone : answer_tool_call R globals tc w
                 = (Ok (Dict "tool" recorded_content (Some (call_id tc))),
                    notified ("Unanswered question: " +:+ py_str q) w)).
  { rewrite (answer_invokes R globals tc _ _ w Ha Hg eq_refl).
    rewrite (bind_Ok _ _ _ _ _
               (record_unknown_question_call R [("question", q)] w eq_refl)).
    by rewrite Hp. }
  rewrite (bind_Ok _ _ _ _ _ Hone). rewrite IH. simpl.
  by rewrite <- !app_assoc.
Qed.

Lemma repeated_calls_notify_each_time_witness :
  pushover_requests
    (snd (handle_tool_call_from curious module_globals []
            (replicate 2 (ToolCall "call_9" "record_unknown_question" "{}")) empty_world))
  = [PStr "Unanswered question: Do you ski?"; PStr "Unanswered question: Do you ski?"].
Proof.
  rewrite (repeated_calls_notify_each_time curious module_globals
             (ToolCall "call_9" "record_unknown_question" "{}") (PStr "Do you ski?")
             2 [] empty_world);
    first [reflexivity | vm_compute; reflexivity].
Defined.

(** ** More on the evaluator *)

(** X5. With a key configured, a history that holds the SDK's message
    object makes the evaluator raise [TypeError] while it serializes the
    conversation, before the [try] block: nothing is posted and nothing
    is accepted. *)
Theorem evaluator_raises_on_sdk_message (R : runtime) (reply : option string)
    (message : string) (history : list chat_message) (w : world) :
  env_missing (getenv R "ANTHROPIC_API_KEY") = false →
  Exists (λ m, ¬ is_dict m) history →
  _evaluate_with_anthropic R reply message history w
  = (Raise (TypeError "Object of type ChatCompletionMessage is not JSON serializable"), w).
Proof.
  intros Hk Hh. unfold _evaluate_with_anthropic. rewrite Hk.
  by rewrite (dumps_sdk_history history Hh).
Qed.

Lemma evaluator_raises_on_sdk_message_witness :
  _evaluate_with_anthropic strict (Some "Thanks!") "hi"
    [Dict "user" "hi" None; Sdk (response_message (asks [contact_call]))] empty_world
  = (Raise (TypeError "Object of type ChatCompletionMessage is not JSON serializable"),
     empty_world).
Proof.
  apply evaluator_raises_on_sdk_message.
  - reflexivity.
  - apply Exists_cons_tl, Exists_cons_hd. by intros [].
Defined.

Lemma completed_rejects data data' :
  completed data = inr data' →
  rejected data' = inr true →
  ∃ d v, data = PDict d ∧ dict_lookup "is_acceptable" d = Some v ∧ truthy v = false.
Proof.
  intros Hc Hr. destruct data as [| | |s|items|d|]; try done.
  - unfold completed, fill_missing in Hc. simpl in Hc.
    destruct (str_contains "is_acceptable" s); simpl in Hc; [|done].
    destruct (str_contains "feedback" s); simpl in Hc; [|done].
    by injection Hc as <-.
  - unfold completed, fill_missing in Hc. simpl in Hc.
    destruct (existsb _ items); simpl in Hc; [|done].
    destruct (existsb _ items); simpl in Hc; [|done].
    by injection Hc as <-.
  - destruct (completed_dict d) as (d' & Hd & Ha & _).
    rewrite Hd in Hc. injection Hc as <-.
    unfold rejected in Hr. simpl in Hr. rewrite Ha in Hr. simpl in Hr.
    destruct (dict_lookup "is_acceptable" d) as [v|] eqn:Hv; [|done].
    exists d, v. split; [done|]. split; [done|].
    injection Hr as Hr. by apply negb_true_iff.
Qed.

(** X6. Only an answer of the evaluator that decodes to an object with
    a false [is_acceptable] can send the turn into a retry: when the
    evaluation returned is one [chat] takes as a rejection, the endpoint
    answered, the text of its answer decoded to a JSON object, and that
    object has an [is_acceptable] whose value is false as a condition.
    No failure of the exchange leads to a retry. *)
Theorem rejection_comes_from_a_decoded_answer (R : runtime) (reply : option string)
    (message : string) (history : list chat_message) (w w' : world) (data : pyval) :
  env_missing (getenv R "ANTHROPIC_API_KEY") = false →
  _evaluate_with_anthropic R reply message history w = (Ok data, w') →
  rejected data = inr true →
  ∃ body out text d v,
    w' = posted body w
    ∧ anthropic_post R (length (anthropic_requests w)) body = Body out
    ∧ response_text out = inr text
    ∧ json_loads R text = inr (PDict d)
    ∧ dict_lookup "is_acceptable" d = Some v
    ∧ truthy v = false.
Proof.
  intros Hk He Hr.
  destruct (json_dumps false (PList (map pyval_of_message history))) as [e|convo] eqn:Hc.
  { unfold _evaluate_with_anthropic in He. rewrite Hk, Hc in He. by unfold bind in He. }
  destruct (dumps_payload (evaluator_prompt reply message convo)) as [body Hb].
  rewrite (evaluate_with_key R _ _ _ _ _ _ Hk Hc Hb) in He.
  injection He as Hd <-.
  destruct (anthropic_post R (length (anthropic_requests w)) body) as [e|e|e|out] eqn:Ho;
    try (subst data; done).
  destruct (response_text out) as [e|text] eqn:Ht; [subst data; done|].
  destruct (json_loads R text) as [e|parsed] eqn:Hl; [subst data; done|].
  destruct (completed parsed) as [e|data'] eqn:Hcomp; [subst data; done|].
  subst data'.
  destruct (completed_rejects _ _ Hcomp Hr) as (d & v & -> & Hv & Hf).
  by exists body, out, text, d, v.
Qed.

Lemma rejection_comes_from_a_decoded_answer_witness :
  ∃ body out text d v,
    snd strict_first
    = posted body (sent (fresh_messages (system_prompt joshua) [] "hi") empty_world)
    ∧ anthropic_post strict 0 body = Body out
    ∧ response_text out = inr text
    ∧ json_loads strict text = inr (PDict d)
    ∧ dict_lookup "is_acceptable" d = Some v
    ∧ truthy v = false.
Proof.
  refine (rejection_comes_from_a_decoded_answer strict (Some "yo") "hi"
            (fresh_messages (system_prompt joshua) [] "hi")
            (sent (fresh_messages (system_prompt joshua) [] "hi") empty_world)
            (snd strict_first)
            (PDict [("is_acceptable", PBool false); ("feedback", PStr "too informal")])
            _ _ _); vm_compute; reflexivity.
Defined.

(** X7. When the text of the evaluator's answer is not JSON, the
    feedback of the accepting result is at most 400 characters long, is
    a prefix of the stripped text, and is the whole stripped text when
    that has at most 400 characters. *)
Theorem unparsed_feedback_is_bounded (R : runtime) (reply : option string)
    (message : string) (history : list chat_message) (w : world)
    (convo body : string) (out : pyval) (text : string) (e : exn) :
  env_missing (getenv R "ANTHROPIC_API_KEY") = false →
  json_dumps false (PList (map pyval_of_message history)) = inr convo →
  json_dumps true (evaluator_payload (evaluator_prompt reply message convo)) = inr body →
  anthropic_post R (length (anthropic_requests w)) body = Body out →
  response_text out = inr text →
  json_loads R text = inl e →
  ∃ feedback,
    _evaluate_with_anthropic R reply message history w
    = (Ok (accepting feedback), posted body w)
    ∧ (String.length feedback ≤ 400)%nat
    ∧ String.prefix feedback (str_strip text) = true
    ∧ ((String.length (str_strip text) ≤ 400)%nat → feedback = str_strip text).
Proof.
  intros Hk Hc Hb Ho Ht Hl.
  exists (str_take 400 (str_strip text)).
  rewrite (evaluate_with_key R _ _ _ _ _ _ Hk Hc Hb), Ho, Ht, Hl.
  repeat split.
  - apply str_take_length.
  - apply str_take_prefix.
  - apply str_take_all.
Qed.

Lemma unparsed_feedback_is_bounded_witness :
  ∃ feedback,
    _evaluate_with_anthropic rambling (Some "Hello.") "hi" [] empty_world
    = (Ok (accepting feedback),
       posted (default "" (match json_dumps true
                                   (evaluator_payload (evaluator_prompt (Some "Hello.") "hi" "[]"))
                           with inr b => Some b | inl _ => None end)) empty_world)
    ∧ (String.length feedback ≤ 400)%nat
    ∧ String.prefix feedback (str_strip "  Looks fine to me.  ") = true
    ∧ ((String.length (str_strip "  Looks fine to me.  ") ≤ 400)%nat
       → feedback = str_strip "  Looks fine to me.  ").
Proof.
  refine (unparsed_feedback_is_bounded rambling (Some "Hello.") "hi" [] empty_world
            "[]" _
            (PDict [("content", PList [PDict [("type", PStr "text");
                                              ("text", PStr "  Looks fine to me.  ")]])])
            "  Looks fine to me.  "
            (Exn "JSONDecodeError" "Expecting value: line 1 column 1 (char 0)")
            _ _ _ _ _ _); vm_compute; reflexivity.
Defined.

Lemma join_texts_blocks parts : ∀ i,
  Forall block_joins parts →
  join_texts i (text_parts parts) = inr (str_concat (map block_text parts)).
Proof.
  induction parts as [|p parts IH]; intros i Hall; [done|].
  apply Forall_cons in Hall as [Hp Hall].
  destruct p as [| | | | |d|]; try (simpl; by apply IH).
  unfold text_parts. simpl. fold (text_parts parts).
  unfold block_joins in Hp.
  destruct (dict_lookup "text" d) as [[| | |s| | |]|]; try done; simpl.
  - by rewrite (IH (S i) Hall).
  - by rewrite (IH (S i) Hall).
Qed.

(** X8. The text read from the evaluator's answer is the concatenation,
    in order, of the ["text"] of the blocks of ["content"] that are
    dictionaries; blocks that are not dictionaries are skipped and a
    dictionary without ["text"] adds nothing.  A body without
    ["content"] gives the empty text, and a body that is not an object
    raises [AttributeError] (which the evaluator turns into an accepting
    result). *)
Theorem answer_text_joins_the_blocks (entries : list (string * pyval))
    (parts : list pyval) :
  dict_lookup "content" entries = Some (PList parts) →
  Forall block_joins parts →
  response_text (PDict entries) = inr (str_concat (map block_text parts))
  ∧ (∀ others, dict_lookup "content" others = None →
               response_text (PDict others) = inr "")
  ∧ (∀ out, (∀ d, out ≠ PDict d) →
            response_text out
            = inl (AttributeError ("'" +:+ type_name out +:+ "' object has no attribute 'get'"))).
Proof.
  intros Hc Hall. split; [|split].
  - unfold response_text. simpl. rewrite Hc. simpl. by apply join_texts_blocks.
  - intros others Ho. unfold response_text. simpl. by rewrite Ho.
  - intros out Hout. destruct out; try done. by destruct (Hout entries0).
Qed.

Lemma answer_text_joins_the_blocks_witness :
  response_text
    (PDict [("content", PList [PDict [("type", PStr "text"); ("text", PStr "Looks ")];
                               PStr "stray";
                               PDict [("type", PStr "tool_use")];
                               PDict [("text", PStr "fine.")]])])
  = inr "Looks fine.".
Proof.
  refine (proj1 (answer_text_joins_the_blocks
            [("content", PList [PDict [("type", PStr "text"); ("text", PStr "Looks ")];
                                PStr "stray";
                                PDict [("type", PStr "tool_use")];
                                PDict [("text", PStr "fine.")]])]
            [PDict [("type", PStr "text"); ("text", PStr "Looks ")];
             PStr "stray";
             PDict [("type", PStr "tool_use")];
             PDict [("text", PStr "fine.")]] eq_refl _)).
  repeat constructor.
Defined.

(** ** More on the turn *)

Lemma attempt_needs_fuel (R : runtime) globals n message messages w st w' :
  attempt R globals 0 n message messages w = (Ok st, w') → False.
Proof. by unfold attempt, bind. Qed.

(** X9. When the first attempt completes and its evaluation is not a
    rejection, [chat] returns the reply of that attempt in the world the
    attempt left: there is no retry round and no further request. *)
Theorem accepted_reply_is_returned (R : runtime) (globals : gmap string binding)
    (fuel : nat) (self : Me) (message : string) (history : list chat_message)
    (w w1 : world) (st : turn_state) :
  attempt R globals fuel 0 message
    (fresh_messages (system_prompt self) history message) w = (Ok st, w1) →
  rejected (evaluation st) = inr false →
  chat_locals R globals fuel self message history w = (Ok st, w1)
  ∧ chat R globals fuel self message history w = (Ok (reply st), w1)
  ∧ attempts st = 0.
Proof.
  intros Ha Hr.
  assert (Hl : chat_locals R globals fuel self message history w = (Ok st, w1)).
  { unfold chat_locals. rewrite (bind_Ok _ _ _ _ _ Ha).
    destruct fuel as [|fuel]; [by apply attempt_needs_fuel in Ha|].
    apply retry_loop_stops with (b := false); auto. }
  split; [done|]. split.
  - unfold chat. by rewrite (bind_Ok _ _ _ _ _ Hl).
  - by eapply attempt_attempts.
Qed.

Lemma accepted_reply_is_returned_witness :
  fst (chat lenient module_globals 1 joshua "hi" [] empty_world) = Ok (Some "Hello.").
Proof.
  pose (r := attempt lenient module_globals 1 0 "hi"
               (fresh_messages (system_prompt joshua) [] "hi") empty_world).
  destruct (accepted_reply_is_returned lenient module_globals 1 joshua "hi" []
              empty_world (snd r) (result_state r)) as (_ & -> & _).
  - vm_compute; reflexivity.
  - vm_compute; reflexivity.
  - vm_compute; reflexivity.
Defined.

(** X10. When the first attempt is rejected and the retry that follows
    is not, [chat] returns the reply of the retry, after exactly one
    retry round. *)
Theorem retried_reply_is_returned (R : runtime) (globals : gmap string binding)
    (fuel : nat) (self : Me) (message : string) (history : list chat_message)
    (w0 w1 w2 : world) (st0 st1 : turn_state) :
  (2 ≤ fuel)%nat →
  attempt R globals fuel 0 message
    (fresh_messages (system_prompt self) history message) w0 = (Ok st0, w1) →
  rejected (evaluation st0) = inr true →
  retry_round R globals fuel (system_prompt self) message history st0 w1 = (Ok st1, w2) →
  rejected (evaluation st1) = inr false →
  chat_locals R globals fuel self message history w0 = (Ok st1, w2)
  ∧ chat R globals fuel self message history w0 = (Ok (reply st1), w2)
  ∧ attempts st1 = 1.
Proof.
  intros Hfuel H0 Hr0 H1 Hr1.
  pose proof (attempt_attempts _ _ _ _ _ _ _ _ _ H0) as Ha0.
  pose proof (retry_round_attempts _ _ _ _ _ _ _ _ _ _ H1) as Ha1.
  rewrite Ha0 in Ha1. simpl in Ha1.
  assert (Hl : chat_locals R globals fuel self message history w0 = (Ok st1, w2)).
  { unfold chat_locals. rewrite (bind_Ok _ _ _ _ _ H0).
    destruct fuel as [|[|fuel]]; try lia.
    rewrite retry_loop_retries by (done || lia). rewrite (bind_Ok _ _ _ _ _ H1).
    apply retry_loop_stops with (b := false); auto. }
  split; [done|]. split; [|done].
  unfold chat. by rewrite (bind_Ok _ _ _ _ _ Hl).
Qed.

Lemma retried_reply_is_returned_witness :
  fst (chat once_strict module_globals 2 joshua "hi" [] empty_world)
  = Ok (Some "Good afternoon.").
Proof.
  pose (r0 := attempt once_strict module_globals 2 0 "hi"
                (fresh_messages (system_prompt joshua) [] "hi") empty_world).
  pose (r1 := retry_round once_strict module_globals 2 (system_prompt joshua) "hi" []
                (result_state r0) (snd r0)).
  destruct (retried_reply_is_returned once_strict module_globals 2 joshua "hi" []
              empty_world (snd r0) (snd r1) (result_state r0) (result_state r1))
    as (_ & -> & _).
  - lia.
  - vm_compute; reflexivity.
  - vm_compute; reflexivity.
  - vm_compute; reflexivity.
  - vm_compute; reflexivity.
  - vm_compute; reflexivity.
Defined.

(** X11. When the generator raises on the first request of a turn,
    [chat] raises the same exception: the request is the only thing the
    turn has sent, nothing went to the evaluator or to Pushover, and no
    reply is made up. *)
Theorem generator_failure_fails_the_turn (R : runtime) (globals : gmap string binding)
    (fuel : nat) (self : Me) (message : string) (history : list chat_message)
    (w : world) (e : exn) :
  openai_create R (length (openai_requests w))
    (fresh_messages (system_prompt self) history message) = inl e →
  chat R globals (S fuel) self message history w
  = (Raise e, sent (fresh_messages (system_prompt self) history message) w).
Proof.
  intros Hc. unfold chat, chat_locals, attempt. simpl generation_loop.
  by rewrite (bind_Raise _ _ _ _ _ (bind_Raise _ _ _ _ _ (bind_Raise _ _ _ _ _
               (bind_Raise _ _ _ _ _ (create_inl R _ _ _ Hc))))).
Qed.

Lemma generator_failure_fails_the_turn_witness :
  chat unreachable module_globals 1 joshua "hi" [] empty_world
  = (Raise (Exn "APIConnectionError" "Connection error."),
     sent (fresh_messages (system_prompt joshua) [] "hi") empty_world).
Proof. by apply generator_failure_fails_the_turn. Defined.

(** X12. A failure during a retry loses the turn: when the first reply
    has been rejected and the retry round raises, [chat] raises that
    exception; it does not fall back on the reply it had. *)
Theorem failure_in_retry_fails_the_turn (R : runtime) (globals : gmap string binding)
    (fuel : nat) (self : Me) (message : string) (history : list chat_message)
    (w0 w1 w2 : world) (st0 : turn_state) (e : exn) :
  attempt R globals fuel 0 message
    (fresh_messages (system_prompt self) history message) w0 = (Ok st0, w1) →
  rejected (evaluation st0) = inr true →
  retry_round R globals fuel (system_prompt self) message history st0 w1 = (Raise e, w2) →
  chat R globals fuel self message history w0 = (Raise e, w2).
Proof.
  intros H0 Hr0 H1.
  pose proof (attempt_attempts _ _ _ _ _ _ _ _ _ H0) as Ha0.
  assert (Hl : chat_locals R globals fuel self message history w0 = (Raise e, w2)).
  { unfold chat_locals. rewrite (bind_Ok _ _ _ _ _ H0).
    destruct fuel as [|fuel]; [by apply attempt_needs_fuel in H0|].
    rewrite retry_loop_retries by (done || lia). by rewrite (bind_Raise _ _ _ _ _ H1). }
  unfold chat. by rewrite (bind_Raise _ _ _ _ _ Hl).
Qed.

Lemma failure_in_retry_fails_the_turn_witness :
  fst (chat flaky module_globals 1 joshua "hi" [] empty_world)
  = Raise (Exn "APIConnectionError" "Connection error.").
Proof.
  pose (r0 := attempt flaky module_globals 1 0 "hi"
                (fresh_messages (system_prompt joshua) [] "hi") empty_world).
  pose (r1 := retry_round flaky module_globals 1 (system_prompt joshua) "hi" []
                (result_state r0) (snd r0)).
  rewrite (failure_in_retry_fails_the_turn flaky module_globals 1 joshua "hi" []
             empty_world (snd r0) (snd r1) (result_state r0)
             (Exn "APIConnectionError" "Connection error."));
    first [reflexivity | vm_compute; reflexivity].
Defined.

(** ** Requests of a turn *)

Section Requests.

Context (R : runtime) (globals : gmap string binding).

Lemma evaluate_posts reply message history w :
  (length (anthropic_requests (snd (_evaluate_with_anthropic R reply message history w)))
   ≤ length (anthropic_requests w) + 1)%nat.
Proof.
  destruct (env_missing (getenv R "ANTHROPIC_API_KEY")) eqn:Hk.
  { rewrite evaluate_unavailable by done. simpl. lia. }
  destruct (json_dumps false (PList (map pyval_of_message history))) as [e|convo] eqn:Hc.
  { unfold _evaluate_with_anthropic. rewrite Hk, Hc. unfold bind. simpl. lia. }
  destruct (dumps_payload (evaluator_prompt reply message convo)) as [body Hb].
  rewrite (evaluate_with_key _ _ _ _ _ _ _ Hk Hc Hb). simpl.
  rewrite length_app. simpl. lia.
Qed.

Lemma attempt_posts fuel n message messages w :
  (length (anthropic_requests (snd (attempt R globals fuel n message messages w)))
   ≤ length (anthropic_requests w) + 1)%nat.
Proof.
  destruct (generation_effect R globals fuel messages w) as (_ & H2 & _).
  unfold attempt. unfold bind at 1.
  destruct (generation_loop R globals fuel messages w)
    as [[[r messages']| |] w1]; simpl in H2; simpl; try (rewrite H2; lia).
  unfold bind at 1. destruct (eval_history_of messages') as [e|h]; simpl.
  { rewrite H2. lia. }
  pose proof (evaluate_posts (content (response_message r)) message h w1) as He.
  rewrite H2 in He. unfold bind.
  destruct (_evaluate_with_anthropic R (content (response_message r)) message h w1)
    as [[ev| |] w2]; simpl in *; lia.
Qed.

Lemma retry_round_posts fuel base message history st w :
  (length (anthropic_requests (snd (retry_round R globals fuel base message history st w)))
   ≤ length (anthropic_requests w) + 1)%nat.
Proof.
  unfold retry_round. unfold bind at 1.
  destruct (get_method (evaluation st) "feedback" (PStr "")) as [e|feedback]; simpl.
  - lia.
  - apply attempt_posts.
Qed.

Lemma retry_loop_posts gen_fuel base message history fuel : ∀ st w,
  (attempts st ≤ 2)%nat →
  (length (anthropic_requests
             (snd (retry_loop R globals fuel gen_fuel base message history st w)))
   ≤ length (anthropic_requests w) + (2 - attempts st))%nat.
Proof.
  induction fuel as [|fuel IH]; intros st w Ha; simpl; [lia|].
  unfold bind at 1.
  destruct (rejected (evaluation st)) as [e|b]; simpl; [lia|].
  destruct (b && Nat.ltb (attempts st) 2) eqn:Hb; simpl; [|lia].
  apply andb_true_iff in Hb as [_ Hlt]. apply Nat.ltb_lt in Hlt.
  pose proof (retry_round_posts gen_fuel base message history st w) as Hp.
  unfold bind.
  destruct (retry_round R globals gen_fuel base message history st w)
    as [[st1| |] w1] eqn:Hrr; simpl in *; try lia.
  apply retry_round_attempts in Hrr.
  specialize (IH st1 w1 ltac:(lia)). lia.
Qed.

(** The requests a run of the tool-call loop adds all extend the
    sequence it started from. *)
Lemma generation_requests fuel : ∀ messages w,
  ∃ new,
    openai_requests (snd (generation_loop R globals fuel messages w))
    = openai_requests w ++ new
    ∧ Forall (λ request, messages `prefix_of` request) new.
Proof.
  induction fuel as [|fuel IH]; intros messages w.
  { exists []. simpl. by rewrite app_nil_r. }
  destruct (openai_create R (length (openai_requests w)) messages) as [e|r] eqn:Hc.
  { exists [messages]. simpl.
    rewrite (bind_Raise _ _ _ _ _ (create_inl R _ _ _ Hc)). simpl.
    split; [done|]. by repeat constructor. }
  destruct (String.eqb (finish_reason r) "tool_calls") eqn:Hf.
  2:{ exists [messages]. rewrite (generation_final _ _ _ _ _ _ Hc Hf). simpl.
      split; [done|]. by repeat constructor. }
  destruct (handle_effect R globals (tool_calls (response_message r)) (sent messages w))
    as [[Hso _] Hr].
  destruct (handle_tool_call R globals (tool_calls (response_message r)) (sent messages w))
    as [[results| |] w2] eqn:Hh; simpl in Hso, Hr; [| |done].
  - rewrite (generation_tools _ _ _ _ _ _ _ _ Hc Hf Hh).
    destruct (IH (messages ++ [Sdk (response_message r)] ++ results) w2)
      as (new & Hnew & Hall).
    exists (messages :: new). rewrite Hnew, Hso. split.
    + by rewrite <- app_assoc.
    + constructor; [done|].
      eapply Forall_impl; [exact Hall|]. intros request Hp. simpl in Hp.
      etrans; [|exact Hp]. by apply prefix_app_r.
  - exists [messages]. rewrite (generation_tools_raise _ _ _ _ _ _ _ _ Hc Hf Hh).
    simpl. rewrite Hso. split; [done|]. by repeat constructor.
Qed.

Lemma attempt_requests fuel n message messages w :
  ∃ new,
    openai_requests (snd (attempt R globals fuel n message messages w))
    = openai_requests w ++ new
    ∧ Forall (λ request, messages `prefix_of` request) new.
Proof.
  destruct (generation_requests fuel messages w) as (new & Hnew & Hall).
  exists new. split; [|done].
  unfold attempt. unfold bind at 1.
  destruct (generation_loop R globals fuel messages w)
    as [[[r messages']| |] w1]; simpl in Hnew; simpl; try done.
  unfold bind at 1. destruct (eval_history_of messages') as [e|h]; simpl; [done|].
  destruct (evaluate_effect R (content (response_message r)) message h w1) as [He _].
  unfold bind.
  destruct (_evaluate_with_anthropic R (content (response_message r)) message h w1)
    as [[ev| |] w2]; simpl in *; by rewrite He.
Qed.

Lemma opens_turn_extends base history message extra request :
  fresh_messages (base +:+ extra) history message `prefix_of` request →
  opens_turn base history message request.
Proof. intros [tail ->]. by exists extra, tail. Qed.

Lemma retry_round_requests fuel base message history st w :
  ∃ new,
    openai_requests (snd (retry_round R globals fuel base message history st w))
    = openai_requests w ++ new
    ∧ Forall (opens_turn base history message) new.
Proof.
  unfold retry_round. unfold bind at 1.
  destruct (get_method (evaluation st) "feedback" (PStr "")) as [e|feedback]; simpl.
  { exists []. by rewrite app_nil_r. }
  destruct (attempt_requests fuel (attempts st + 1) message
              (fresh_messages
                 (base +:+ rejection_block (py_str_opt (reply st)) (py_str feedback))
                 history message) w) as (new & Hnew & Hall).
  exists new. split; [done|].
  eapply Forall_impl; [exact Hall|]. intros request. apply opens_turn_extends.
Qed.

Lemma retry_loop_requests gen_fuel base message history fuel : ∀ st w,
  ∃ new,
    openai_requests (snd (retry_loop R globals fuel gen_fuel base message history st w))
    = openai_requests w ++ new
    ∧ Forall (opens_turn base history message) new.
Proof.
  induction fuel as [|fuel IH]; intros st w; simpl.
  { exists []. by rewrite app_nil_r. }
  unfold bind at 1.
  destruct (rejected (evaluation st)) as [e|b]; simpl.
  { exists []. by rewrite app_nil_r. }
  destruct (b && Nat.ltb (attempts st) 2); simpl.
  2:{ exists []. by rewrite app_nil_r. }
  destruct (retry_round_requests gen_fuel base message history st w)
    as (new & Hnew & Hall).
  unfold bind.
  destruct (retry_round R globals gen_fuel base message history st w)
    as [[st1| |] w1]; simpl in *; try (by exists new).
  destruct (IH st1 w1) as (new' & Hnew' & Hall').
  exists (new ++ new'). rewrite Hnew', Hnew. split; [by rewrite app_assoc|].
  by apply Forall_app.
Qed.

End Requests.

(** X13. A turn consults the evaluator at most three times, whatever
    the generator and the evaluator do and however the turn ends. *)
Theorem at_most_three_evaluations (R : runtime) (globals : gmap string binding)
    (fuel : nat) (self : Me) (message : string) (history : list chat_message)
    (w : world) :
  (length (anthropic_requests (snd (chat R globals fuel self message history w)))
   ≤ length (anthropic_requests w) + 3)%nat.
Proof.
  assert (Hl : (length (anthropic_requests
                          (snd (chat_locals R globals fuel self message history w)))
                ≤ length (anthropic_requests w) + 3)%nat).
  { unfold chat_locals.
    pose proof (attempt_posts R globals fuel 0 message
                  (fresh_messages (system_prompt self) history message) w) as Hp.
    unfold bind.
    destruct (attempt R globals fuel 0 message
                (fresh_messages (system_prompt self) history message) w)
      as [[st| |] w1] eqn:Ha; simpl in *; try lia.
    apply attempt_attempts in Ha.
    pose proof (retry_loop_posts R globals fuel (system_prompt self) message history
                  fuel st w1 ltac:(lia)) as Hq.
    rewrite Ha in Hq. simpl in Hq. lia. }
  unfold chat, bind.
  by destruct (chat_locals R globals fuel self message history w) as [[st| |] w1].
Qed.

(** X14. Every request a turn sends to the generator starts with one
    system message, whose text starts with the persona's system prompt,
    followed by the caller's history and then the user's message, in the
    order given: the history is never dropped, reordered or rewritten,
    in the first attempt or in a retry. *)
Theorem every_request_opens_with_the_turn (R : runtime) (globals : gmap string binding)
    (fuel : nat) (self : Me) (message : string) (history : list chat_message)
    (w : world) :
  ∃ new,
    openai_requests (snd (chat R globals fuel self message history w))
    = openai_requests w ++ new
    ∧ Forall (opens_turn (system_prompt self) history message) new.
Proof.
  assert (Hl : ∃ new,
    openai_requests (snd (chat_locals R globals fuel self message history w))
    = openai_requests w ++ new
    ∧ Forall (opens_turn (system_prompt self) history message) new).
  { unfold chat_locals.
    destruct (attempt_requests R globals fuel 0 message
                (fresh_messages (system_prompt self) history message) w)
      as (new & Hnew & Hall).
    assert (Hall' : Forall (opens_turn (system_prompt self) history message) new).
    { eapply Forall_impl; [exact Hall|]. intros request Hp.
      apply opens_turn_extends with (extra := ""). by rewrite str_append_nil_r. }
    unfold bind.
    destruct (attempt R globals fuel 0 message
                (fresh_messages (system_prompt self) history message) w)
      as [[st| |] w1]; simpl in *; try (by exists new).
    destruct (retry_loop_requests R globals fuel (system_prompt self) message history
                fuel st w1) as (new' & Hnew' & Hall'').
    exists (new ++ new'). rewrite Hnew', Hnew. split; [by rewrite app_assoc|].
    by apply Forall_app. }
  destruct Hl as (new & Hnew & Hall). exists new. split; [|done].
  unfold chat, bind.
  by destruct (chat_locals R globals fuel self message history w) as [[st| |] w1].
Qed.

(** ** The system prompt *)

Lemma prefix_append_l a : ∀ s b,
  String.prefix s a = true → String.prefix s (a +:+ b) = true.
Proof.
  induction a as [|c a IH]; intros s b H.
  - destruct s; [by destruct b|done].
  - destruct s as [|x s]; [done|].
    rewrite str_append_cons. simpl in *.
    destruct (Ascii.ascii_dec x c); [by apply IH|done].
Qed.

Lemma str_contains_append_l a : ∀ s b,
  str_contains s a = true → str_contains s (a +:+ b) = true.
Proof.
  induction a as [|c a IH]; intros s b H.
  - rewrite str_contains_unfold in H. rewrite orb_false_r in H.
    rewrite str_contains_unfold. by rewrite (prefix_append_l "" s b H).
  - rewrite str_contains_unfold in H. apply orb_true_iff in H as [H|H].
    + rewrite str_contains_unfold. by rewrite (prefix_append_l _ s b H).
    + rewrite str_append_cons, str_contains_unfold. rewrite (IH s b H).
      apply orb_true_r.
Qed.

(** X15. For every persona the system prompt carries the name, the
    summary, the LinkedIn text and the resume text as they are, and it
    names both tools that [tools] declares. *)
Theorem system_prompt_carries_the_documents (self : Me) :
  str_contains (name self) (system_prompt self) = true
  ∧ str_contains (summary self) (system_prompt self) = true
  ∧ str_contains (linkedin self) (system_prompt self) = true
  ∧ str_contains (resume self) (system_prompt self) = true
  ∧ map schema_name declared_schemas = ["record_user_details"; "record_unknown_question"]
  ∧ Forall (λ tool, str_contains tool (system_prompt self) = true)
      ["record_user_details"; "record_unknown_question"].
Proof.
  unfold system_prompt. cbv zeta.
  split; [|split; [|split; [|split; [|split]]]].
  - do 2 apply str_contains_append_l.
    apply str_contains_skip. apply str_contains_here.
  - apply str_contains_append_l.
    do 5 apply str_contains_skip. apply str_contains_here.
  - apply str_contains_append_l.
    do 10 apply str_contains_skip. apply str_contains_here.
  - apply str_contains_append_l.
    do 15 apply str_contains_skip. apply str_contains_here.
  - reflexivity.
  - repeat constructor.
    + do 2 apply str_contains_append_l.
      do 14 apply str_contains_skip. vm_compute. reflexivity.
    + do 2 apply str_contains_append_l.
      do 13 apply str_contains_skip. apply str_contains_append_l.
      vm_compute. reflexivity.
Qed.

(** ** The history handed to the evaluator, again *)

Lemma eval_history_sdk_anywhere messages :
  Exists (λ m, ¬ is_dict m) messages →
  eval_history_of messages
  = inl (TypeError "'ChatCompletionMessage' object is not subscriptable").
Proof.
  induction messages as [|m messages IH]; intros H; [by apply Exists_nil in H|].
  destruct m as [role c i|a]; [|done].
  apply Exists_cons in H as [H|H]; [by destruct H|].
  cbn [eval_history_of getitem_role]. by rewrite (IH H).
Qed.

Lemma filter_kept_all messages :
  Forall (λ m, kept_role m = true) messages → List.filter kept_role messages = messages.
Proof.
  induction 1 as [|m messages Hm Hall IH]; [done|].
  cbn [List.filter]. by rewrite Hm, IH.
Qed.

(** X16. The history for the evaluator can be built exactly when every
    element of [messages] is a dictionary; it is then the sub-sequence,
    in order, of the messages whose role is system, user, assistant or
    tool (the whole sequence when all roles are among these four), and
    messages with any other role are left out.  One SDK message object
    anywhere in [messages] makes the comprehension raise [TypeError]. *)
Theorem evaluator_history_is_the_dictionaries (messages : list chat_message) :
  (∀ h, eval_history_of messages = inr h →
        Forall is_dict messages ∧ h = List.filter kept_role messages)
  ∧ (Forall is_dict messages →
     eval_history_of messages = inr (List.filter kept_role messages))
  ∧ (Forall (λ m, kept_role m = true) messages → eval_history_of messages = inr messages)
  ∧ (Exists (λ m, ¬ is_dict m) messages →
     eval_history_of messages
     = inl (TypeError "'ChatCompletionMessage' object is not subscriptable")).
Proof.
  split; [|split; [|split]].
  - intros h Hh. destruct (eval_history_inr _ _ Hh) as [Hd _].
    split; [done|]. rewrite (eval_history_dicts _ Hd) in Hh. by injection Hh.
  - apply eval_history_dicts.
  - intros Hall. rewrite eval_history_dicts.
    + by rewrite filter_kept_all.
    + eapply Forall_impl; [exact Hall|]. intros [role c i|a]; [done|]. simpl. done.
  - apply eval_history_sdk_anywhere.
Qed.

(** ** Dispatch beyond the declared tools *)

(** X17. The dispatch reaches [push] itself: a call that names [push]
    with a string for its [text] argument is answered with the payload
    [null] and, Pushover being configured, posts that string as a
    notification, though [tools] does not declare it. *)
Theorem push_can_be_called_by_name (R : runtime) (tc : tool_call) (t : string)
    (w : world) :
  json_loads R (function_arguments tc) = inr (PDict [("text", PStr t)]) →
  function_name tc = "push" →
  ¬ In "push" (map schema_name declared_schemas)
  ∧ answer_tool_call R module_globals tc w
    = (Ok (Dict "tool" "null" (Some (call_id tc))),
       if pushover_configured R then notified t w else w).
Proof.
  intros Ha Hn. split.
  { vm_compute. intros [H|[H|[]]]; discriminate. }
  assert (Hg : module_globals !! function_name tc = Some (Function f_push)).
  { rewrite Hn. vm_compute. reflexivity. }
  rewrite (answer_invokes R module_globals tc _ _ w Ha Hg eq_refl).
  assert (Hcall : call_binding R (Function f_push) (PDict [("text", PStr t)]) w
                  = (Ok PNone, if pushover_configured R then notified t w else w)).
  { unfold call_binding.
    rewrite (bind_Ok _ _ _ _ _
               (f_equal (λ r, lift r w)
                  (bind_kwargs_bound "push" ["text"] [] [("text", PStr t)] eq_refl eq_refl))).
    simpl. apply push_effect. }
  by rewrite (bind_Ok _ _ _ _ _ Hcall).
Qed.

Lemma push_can_be_called_by_name_witness :
  pushover_requests
    (snd (answer_tool_call advertising module_globals (ToolCall "call_4" "push" "{}")
            empty_world))
  = [PStr "Buy now!"].
Proof.
  rewrite (proj2 (push_can_be_called_by_name advertising (ToolCall "call_4" "push" "{}")
                    "Buy now!" empty_world eq_refl eq_refl)).
  reflexivity.
Defined.

(** X18. A call that names a class of the module, such as [Me], is
    never answered: the constructor raises, or it returns an instance
    and serializing the instance for the tool message raises
    [TypeError]; either way the exception leaves the dispatch. *)
Theorem class_call_is_never_answered (R : runtime) (globals : gmap string binding)
    (tc : tool_call) (a : pyval) (callee : string) (w : world) :
  json_loads R (function_arguments tc) = inr a →
  globals !! function_name tc = Some (Opaque callee) →
  (∀ kw v, opaque_call R callee kw = inr v → ∃ cls, v = PObject cls) →
  ∃ e, answer_tool_call R globals tc w = (Raise e, w).
Proof.
  intros Ha Hg Hobj.
  rewrite (answer_invokes R globals tc _ _ w Ha Hg eq_refl).
  unfold call_binding. destruct a as [| | | | |kw|];
    try (eexists; unfold bind, raise; simpl; reflexivity).
  destruct (opaque_call R callee kw) as [e|v] eqn:Ho.
  - by exists e.
  - destruct (Hobj kw v Ho) as [cls ->]. by eexists.
Qed.

Lemma class_call_is_never_answered_witness :
  ∃ e, answer_tool_call hallucinating module_globals (ToolCall "call_5" "Me" "{}")
         empty_world = (Raise e, empty_world).
Proof.
  apply (class_call_is_never_answered hallucinating module_globals
           (ToolCall "call_5" "Me" "{}") (PDict []) "Me" empty_world).
  - reflexivity.
  - vm_compute; reflexivity.
  - intros kw v [= <-]. by eexists.
Defined.
